(** * The create-payment edge function of belajarbareng-fin

    A shallow embedding of [supabase/functions/create-payment/index.ts]:
    the request handler that authenticates a bearer token, resolves a price
    from [premium_packages], writes a pending row into [transactions] and
    asks the payment gateway for a Snap session.

    Conventions of the embedding.
    - JavaScript strings are [string]s (sequences of 8-bit characters); the
      identifiers handled here (UUIDs, header values, plan names) are ASCII,
      where [length] and [substring] agree with the UTF-16 ones.
    - Integral JavaScript numbers (prices, HTTP statuses, [Date.now()]) are
      [Z]; [toString] on them is decimal printing.
    - Everything the handler awaits from outside (environment variables, the
      request, the identity service, the database, the gateway, the clock)
      is a field of a [World]; the handler is a function of the world and of
      the ledger it starts from, and returns the response together with the
      ledger it leaves and the ordered trace of its effects. *)

From Stdlib Require Import ZArith List String Ascii Bool Lia.
From Stdlib Require Import DecimalString DecimalZ Decimal.
From Stdlib Require Import Sorting.Sorted Sorting.Permutation.
Import ListNotations.

Local Open Scope string_scope.
Local Open Scope Z_scope.

(** ** JavaScript string helpers *)

Module Js.

(** [Number.prototype.toString()] on an integer. *)
Definition toString (n : Z) : string :=
  NilZero.string_of_int (Z.to_int n).

(** [s.substring(0, n)]: the first [n] characters, fewer if [s] is shorter. *)
Definition substring0 (n : nat) (s : string) : string :=
  String.substring 0 n s.

(** [s.replace(pat, rep)] with a string pattern: only the first occurrence
    is replaced. *)
Fixpoint replace (pat rep s : string) : string :=
  if String.prefix pat s
  then rep ++ String.substring (String.length pat)
                               (String.length s - String.length pat) s
  else match s with
       | EmptyString => EmptyString
       | String c s' => String c (replace pat rep s')
       end.

(** [s.includes(sub)] *)
Definition includes (sub s : string) : bool :=
  match String.index 0 sub s with
  | Some _ => true
  | None => false
  end.

(** Truthiness of a string: only the empty string is falsy. *)
Definition truthy (s : string) : bool :=
  negb (String.eqb s "").

(** Truthiness of a possibly absent string ([undefined], [null] or a value). *)
Definition truthy_opt (o : option string) : bool :=
  match o with
  | Some s => truthy s
  | None => false
  end.

(** [a || b] on strings. *)
Definition or_else (a b : string) : string :=
  if truthy a then a else b.

(** The string held by a value already tested truthy. *)
Definition value_of (o : option string) : string :=
  match o with
  | Some s => s
  | None => ""
  end.

(** [o || b] where [o] may be [undefined]/[null]. *)
Definition opt_or_else (o : option string) (b : string) : string :=
  match o with
  | Some a => or_else a b
  | None => b
  end.

End Js.

(** ** Order identifiers (index.ts, lines 97-100) *)

(** [`prem-${user.id.substring(0, 8)}-${Date.now().toString()}`] *)
Definition orderId_of (user_id : string) (now : Z) : string :=
  let timestamp := Js.toString now in
  let userIdShort := Js.substring0 8 user_id in
  "prem-" ++ userIdShort ++ "-" ++ timestamp.

(** [btoa]: base64 of a string of 8-bit characters (used for the gateway's
    Basic authorization header, line 153). *)
Module Base64.

Definition alphabet : string :=
  "ABCDEFGHIJKLMNOPQRSTUVWXYZabcdefghijklmnopqrstuvwxyz0123456789+/".

Definition digit (n : N) : ascii :=
  match String.get (N.to_nat n) alphabet with
  | Some c => c
  | None => "="%char
  end.

Definition code (c : ascii) : N := N_of_ascii c.

(** Three input characters give four digits; a tail of one or two
    characters is padded with [=]. *)
Fixpoint encode_fuel (fuel : nat) (s : string) : string :=
  match fuel with
  | O => EmptyString
  | S fuel' =>
      match s with
      | EmptyString => EmptyString
      | String a EmptyString =>
          let n := N.shiftl (code a) 16 in
          String (digit (N.shiftr n 18))
            (String (digit (N.land (N.shiftr n 12) 63)) "==")
      | String a (String b EmptyString) =>
          let n := N.lor (N.shiftl (code a) 16) (N.shiftl (code b) 8) in
          String (digit (N.shiftr n 18))
            (String (digit (N.land (N.shiftr n 12) 63))
               (String (digit (N.land (N.shiftr n 6) 63)) "="))
      | String a (String b (String c rest)) =>
          let n := N.lor (N.lor (N.shiftl (code a) 16) (N.shiftl (code b) 8))
                         (code c) in
          String (digit (N.shiftr n 18))
            (String (digit (N.land (N.shiftr n 12) 63))
               (String (digit (N.land (N.shiftr n 6) 63))
                  (String (digit (N.land n 63)) (encode_fuel fuel' rest))))
      end
  end.

Definition btoa (s : string) : string :=
  encode_fuel (S (String.length s)) s.

End Base64.

(** ** Data model *)

(** The authenticated user returned by [auth.getUser] ([user.email] is
    optional in the client's typing). *)
Record User := mkUser {
  user_id : string;
  user_email : option string
}.

(** The [{ data: { user }, error }] answer of [auth.getUser(token)]. *)
Record AuthResponse := mkAuthResponse {
  auth_user : option User;
  auth_error : option string
}.

(** A row of [premium_packages] (types.ts, lines 82-93); [is_active] and
    [is_popular] are nullable booleans, [created_at] is a timestamp, here
    the number of microseconds since the epoch. *)
Record PremiumPackage := mkPackage {
  pkg_price : Z;
  pkg_duration_months : Z;
  pkg_name : string;
  pkg_is_active : option bool;
  pkg_is_popular : option bool;
  pkg_created_at : Z
}.

(** A row of [profiles], as far as the handler reads it. *)
Record Profile := mkProfile {
  profile_id : string;
  profile_nama : string
}.

(** The object passed to [from('transactions').insert(...)], lines 112-118. *)
Record Transaction := mkTransaction {
  tx_user_id : string;
  tx_paket : string;
  tx_amount : Z;
  tx_midtrans_order_id : string;
  tx_status : string
}.

(** A [{ data, error }] answer of the database client. *)
Record QueryResponse (A : Type) := mkQueryResponse {
  data : option A;
  error : option string
}.
Arguments mkQueryResponse {A} _ _.
Arguments data {A} _.
Arguments error {A} _.

(** The [snapTransaction] object, lines 126-144. *)
Record ItemDetail := mkItem {
  item_id : string;
  item_price : Z;
  item_quantity : Z;
  item_name : string
}.

Record SnapTransaction := mkSnap {
  snap_order_id : string;
  snap_gross_amount : Z;
  snap_credit_card_secure : bool;
  snap_first_name : string;
  snap_email : option string;
  snap_item_details : list ItemDetail
}.

(** The [fetch] call to the gateway: URL, method, headers and the object
    that is serialised into the body. *)
Record GatewayRequest := mkGatewayRequest {
  gw_url : string;
  gw_method : string;
  gw_headers : list (string * string);
  gw_body : SnapTransaction
}.

(** What [midtransResponse.json()] followed by [.token] gives: an exception
    (body not JSON, or not an object) or the possibly absent token. *)
Inductive JsonOutcome :=
| JsonThrows (message : string)
| JsonToken (token : option string).

(** The gateway's response: its status, its text and its JSON reading. *)
Record GatewayResponse := mkGatewayResponse {
  gw_status : Z;
  gw_text : string;
  gw_json : JsonOutcome
}.

(** What [fetch] gives: a rejected promise (transport failure) or a
    response. *)
Inductive GatewayOutcome :=
| FetchThrows (message : string)
| FetchResponse (response : GatewayResponse).

(** [Response.ok]: the status is in the range 200-299. *)
Definition response_ok (status : Z) : bool :=
  (200 <=? status) && (status <=? 299).

(** What [req.json()] followed by the destructuring of [paket] gives. *)
Inductive RequestBody :=
| BodyThrows (message : string)
| BodyPaket (paket : option string).

(** The body of the handler's answer: [null], the session object or the
    error object (the fields of the JSON that is serialised). *)
Inductive ResponseBody :=
| BodyNull
| BodySession (token : option string) (order_id : string)
| BodyError (error : string).

Record Response := mkResponse {
  resp_status : Z;
  resp_headers : list (string * string);
  resp_body : ResponseBody
}.

(** Everything outside the handler. *)
Record World := mkWorld {
  env : string -> option string;                  (* Deno.env.get *)
  createClient_error : string -> string -> option string;
      (* createClient(url, key) may throw: the client library rejects
         some urls and keys, an empty key among them *)
  req_method : string;
  req_authorization : option string;              (* headers.get *)
  req_body : RequestBody;
  auth_getUser : string -> AuthResponse;
  db_packages : list PremiumPackage;
  db_packages_error : option string;              (* the select fails *)
  db_profiles : list Profile;
  db_profiles_error : option string;
  db_insert_error : Transaction -> list Transaction -> option string;
  now : Z;                                        (* Date.now() *)
  gateway : GatewayRequest -> GatewayOutcome
}.

(** ** Effects *)

Inductive Event :=
| ConsoleLog (args : list string)
| ConsoleError (args : list string)
| AuthGetUser (token : string)
| SelectPackage (duration : Z)
| SelectProfile (id : string)
| InsertTransaction (row : Transaction) (err : option string)
| Fetch (request : GatewayRequest).

(** The state threaded through a run: the [transactions] table and the
    effects so far, oldest first. *)
Record State := mkState {
  ledger : list Transaction;
  trace : list Event
}.

Inductive Outcome (A : Type) :=
| Returned (a : A)
| Thrown (message : string).
Arguments Returned {A} _.
Arguments Thrown {A} _.

(** Computations that read and write the state and may throw. *)
Definition M (A : Type) : Type := State -> Outcome A * State.

Definition ret {A} (a : A) : M A := fun s => (Returned a, s).

Definition bind {A B} (m : M A) (k : A -> M B) : M B :=
  fun s =>
    match m s with
    | (Returned a, s') => k a s'
    | (Thrown e, s') => (Thrown e, s')
    end.

Definition throw {A} (message : string) : M A :=
  fun s => (Thrown message, s).

Definition try_catch {A} (m : M A) (handler : string -> M A) : M A :=
  fun s =>
    match m s with
    | (Returned a, s') => (Returned a, s')
    | (Thrown e, s') => handler e s'
    end.

Definition emit (ev : Event) : M unit :=
  fun s => (Returned tt, mkState (ledger s) (trace s ++ [ev])%list).

Declare Scope js_scope.
Delimit Scope js_scope with js.
Notation "x <- m ;; k" := (bind m (fun x => k))
  (at level 100, m at next level, right associativity) : js_scope.
Notation "m ;; k" := (bind m (fun _ => k))
  (at level 100, right associativity) : js_scope.
Local Open Scope js_scope.

Definition console_log (args : list string) : M unit := emit (ConsoleLog args).
Definition console_error (args : list string) : M unit := emit (ConsoleError args).

(** How the console shows a possibly null error object. *)
Definition show_error (e : option string) : string :=
  match e with
  | Some m => m
  | None => "null"
  end.

(** ** The database client *)

Module Db.

(** [.eq(column, true)] on a nullable boolean column: NULL does not match. *)
Definition is_true (b : option bool) : bool :=
  match b with
  | Some true => true
  | _ => false
  end.

(** Position of an [is_popular] value under [ORDER BY is_popular DESC]:
    the client sends [is_popular.desc] without a nulls option, and the
    database then puts NULL before [true] before [false]. *)
Definition popular_rank (b : option bool) : Z :=
  match b with
  | None => 2
  | Some true => 1
  | Some false => 0
  end.

(** [before a b]: row [a] may stand before row [b] under
    [.order('is_popular', desc).order('created_at', desc)]. *)
Definition before (a b : PremiumPackage) : bool :=
  let ra := popular_rank (pkg_is_popular a) in
  let rb := popular_rank (pkg_is_popular b) in
  (rb <? ra) || ((ra =? rb) && (pkg_created_at b <=? pkg_created_at a)).

Definition Before (a b : PremiumPackage) : Prop := before a b = true.

Fixpoint insert_row (x : PremiumPackage) (l : list PremiumPackage)
  : list PremiumPackage :=
  match l with
  | [] => [x]
  | y :: l' => if before x y then x :: y :: l' else y :: insert_row x l'
  end.

(** The rows in the query's order.  Rows that the order does not tell
    apart stay in table order here; the database may return them in any
    order, and the properties below do not depend on it. *)
Definition order_rows (l : list PremiumPackage) : list PremiumPackage :=
  fold_right insert_row [] l.

(** The rows kept by [.eq('is_active', true).eq('duration_months', d)]. *)
Definition matches (d : Z) (p : PremiumPackage) : bool :=
  is_true (pkg_is_active p) && (pkg_duration_months p =? d).

(** [.maybeSingle()]: no row gives [null] without error, one row gives the
    row, several rows are an error. *)
Definition maybeSingle {A} (rows : list A) : QueryResponse A :=
  match rows with
  | [] => mkQueryResponse None None
  | [r] => mkQueryResponse (Some r) None
  | _ => mkQueryResponse None (Some "JSON object requested, multiple (or no) rows returned")
  end.

(** [.single()]: anything but exactly one row is an error. *)
Definition single {A} (rows : list A) : QueryResponse A :=
  match rows with
  | [r] => mkQueryResponse (Some r) None
  | _ => mkQueryResponse None (Some "JSON object requested, multiple (or no) rows returned")
  end.

(** Lines 73-81: the query on [premium_packages]. *)
Definition select_package (w : World) (d : Z) : QueryResponse PremiumPackage :=
  match db_packages_error w with
  | Some e => mkQueryResponse None (Some e)
  | None =>
      maybeSingle (firstn 1 (order_rows (filter (matches d) (db_packages w))))
  end.

(** Lines 103-107: the query on [profiles]. *)
Definition select_profile (w : World) (id : string) : QueryResponse Profile :=
  match db_profiles_error w with
  | Some e => mkQueryResponse None (Some e)
  | None =>
      single (filter (fun p => String.eqb (profile_id p) id) (db_profiles w))
  end.

End Db.

Definition query_package (w : World) (d : Z) : M (QueryResponse PremiumPackage) :=
  emit (SelectPackage d) ;; ret (Db.select_package w d).

Definition query_profile (w : World) (id : string) : M (QueryResponse Profile) :=
  emit (SelectProfile id) ;; ret (Db.select_profile w id).

(** [from('transactions').insert(row)]: the row is stored unless the
    database reports an error. *)
Definition insert_transaction (w : World) (row : Transaction)
  : M (option string) :=
  fun s =>
    let err := db_insert_error w row (ledger s) in
    let ledger' := match err with
                   | None => (ledger s ++ [row])%list
                   | Some _ => ledger s
                   end in
    (Returned err,
     mkState ledger' (trace s ++ [InsertTransaction row err])%list).

Definition getUser (w : World) (token : string) : M AuthResponse :=
  emit (AuthGetUser token) ;; ret (auth_getUser w token).

(** [createClient(url, key)]: builds a client object, or throws. *)
Definition createClient (w : World) (url key : string) : M unit :=
  match createClient_error w url key with
  | Some e => throw e
  | None => ret tt
  end.

Definition read_body (w : World) : M (option string) :=
  match req_body w with
  | BodyThrows e => throw e
  | BodyPaket p => ret p
  end.

Definition fetch (w : World) (request : GatewayRequest) : M GatewayResponse :=
  emit (Fetch request) ;;
  match gateway w request with
  | FetchThrows e => throw e
  | FetchResponse r => ret r
  end.

(** ** The handler *)

Definition corsHeaders : list (string * string) :=
  [("Access-Control-Allow-Origin", "*");
   ("Access-Control-Allow-Headers",
    "authorization, x-client-info, apikey, content-type")].

Definition jsonHeaders : list (string * string) :=
  (corsHeaders ++ [("Content-Type", "application/json")])%list.

(** [['monthly', 'yearly'].includes(paket)] *)
Definition is_plan (paket : string) : bool :=
  String.eqb paket "monthly" || String.eqb paket "yearly".

(** [paket === 'monthly' ? 1 : 12] *)
Definition plan_duration (paket : string) : Z :=
  if String.eqb paket "monthly" then 1 else 12.

(** Lines 88-89: the default price table. *)
Definition fallback_amount (paket : string) : Z :=
  if String.eqb paket "monthly" then 40000 else 400000.

Definition fallback_name (paket : string) : string :=
  "Premium Membership " ++
  (if String.eqb paket "monthly" then "1 Bulan" else "1 Tahun").

(** Lines 72-93: price resolution. *)
Definition resolve_price (w : World) (paket : string) : M (Z * string) :=
  r <- query_package w (plan_duration paket) ;;
  match error r, data r with
  | None, Some packageData =>
      ret (pkg_price packageData, pkg_name packageData)
  | packageError, _ =>
      console_error ["Package fetch error:"; show_error packageError] ;;
      ret (fallback_amount paket, fallback_name paket)
  end.

(** Lines 126-144. *)
Definition snapTransaction_of (user : User) (paket : string) (amount : Z)
    (packageName orderId : string) (profile : option Profile)
  : SnapTransaction :=
  {| snap_order_id := orderId;
     snap_gross_amount := amount;
     snap_credit_card_secure := true;
     snap_first_name := Js.opt_or_else (option_map profile_nama profile) "User";
     snap_email := user_email user;
     snap_item_details :=
       [ {| item_id := "premium-" ++ paket;
            item_price := amount;
            item_quantity := 1;
            item_name := packageName |} ] |}.

(** Lines 148-156. *)
Definition gateway_request (midtransServerKey : string) (snap : SnapTransaction)
  : GatewayRequest :=
  {| gw_url := "https://app.midtrans.com/snap/v1/transactions";
     gw_method := "POST";
     gw_headers :=
       [("Accept", "application/json");
        ("Content-Type", "application/json");
        ("Authorization", "Basic " ++ Base64.btoa (midtransServerKey ++ ":"))];
     gw_body := snap |}.

(** The [try] block, lines 20-173. *)
Definition pipeline (w : World) : M Response :=
  let midtransServerKey := env w "MIDTRANS_SERVER_KEY" in
  let supabaseUrl := env w "SUPABASE_URL" in
  let supabaseServiceKey := env w "SUPABASE_SERVICE_ROLE_KEY" in
  if negb (Js.truthy_opt midtransServerKey) then
    console_error ["MIDTRANS_SERVER_KEY environment variable is not set"] ;;
    throw "Midtrans server key not configured"
  else
  if negb (Js.truthy_opt supabaseUrl) || negb (Js.truthy_opt supabaseServiceKey)
  then
    console_error ["Supabase environment variables are not set"] ;;
    throw "Supabase configuration not found"
  else
  console_log ["Environment variables check passed"] ;;
  createClient w (Js.value_of supabaseUrl)
    (Js.opt_or_else (env w "SUPABASE_ANON_KEY") "") ;;
  let authHeader := req_authorization w in
  if negb (Js.truthy_opt authHeader) then
    console_error ["No authorization header provided"] ;;
    throw "Authorization header required"
  else
  let token := Js.replace "Bearer " "" (Js.value_of authHeader) in
  console_log ["Token length:"; Js.toString (Z.of_nat (String.length token));
               "Token prefix:"; Js.substring0 20 token] ;;
  auth <- getUser w token ;;
  match auth_error auth, auth_user auth with
  | None, Some user =>
    createClient w (Js.value_of supabaseUrl) (Js.value_of supabaseServiceKey) ;;
    paket <- read_body w ;;
    if negb (Js.truthy_opt paket) || negb (is_plan (Js.value_of paket)) then
      throw "Invalid paket. Must be 'monthly' or 'yearly'"
    else
    let paket := Js.value_of paket in
    quote <- resolve_price w paket ;;
    let amount := fst quote in
    let packageName := snd quote in
    console_log ["Using package: " ++ packageName ++
                 " with price: " ++ Js.toString amount] ;;
    let orderId := orderId_of (user_id user) (now w) in
    profile <- query_profile w (user_id user) ;;
    transactionError <-
      insert_transaction w
        {| tx_user_id := user_id user;
           tx_paket := paket;
           tx_amount := amount;
           tx_midtrans_order_id := orderId;
           tx_status := "pending" |} ;;
    match transactionError with
    | Some e =>
        console_error ["Transaction creation error:"; e] ;;
        throw "Failed to create transaction record"
    | None =>
      let snapTransaction :=
        snapTransaction_of user paket amount packageName orderId
                           (data profile) in
      console_log ["Creating Midtrans Snap transaction..."] ;;
      midtransResponse <-
        fetch w (gateway_request (Js.value_of midtransServerKey)
                                 snapTransaction) ;;
      if negb (response_ok (gw_status midtransResponse)) then
        let errorText := gw_text midtransResponse in
        console_error ["Midtrans API error status:";
                       Js.toString (gw_status midtransResponse)] ;;
        console_error ["Midtrans API error response:"; errorText] ;;
        throw ("Midtrans API Error (" ++
               Js.toString (gw_status midtransResponse) ++ "): " ++ errorText)
      else
      match gw_json midtransResponse with
      | JsonThrows e => throw e
      | JsonToken token =>
          ret (mkResponse 200 jsonHeaders (BodySession token orderId))
      end
    end
  | authError, _ =>
      console_error ["Authentication error:"; show_error authError] ;;
      throw "User not authenticated"
  end.

(** The [catch] block, lines 175-183. *)
Definition on_error (message : string) : M Response :=
  console_error ["Payment creation error:"; message] ;;
  ret (mkResponse 500 jsonHeaders
         (BodyError (Js.or_else message "Failed to create payment session"))).

(** The function passed to [serve], lines 13-184. *)
Definition handler (w : World) : M Response :=
  if String.eqb (req_method w) "OPTIONS"
  then ret (mkResponse 200 corsHeaders BodyNull)
  else try_catch (pipeline w) on_error.

(** A run of the handler on a ledger, with an empty trace. *)
Definition run (w : World) (l : list Transaction) : Outcome Response * State :=
  handler w (mkState l []).

(** The server, requests handled one after the other: one run per
    request, each on the ledger the previous one left, the traces
    accumulated. *)
Fixpoint serve (ws : list World) (s : State) : list (Outcome Response) * State :=
  match ws with
  | [] => ([], s)
  | w :: ws' =>
      let (r, s') := handler w s in
      let (rs, s'') := serve ws' s' in
      (r :: rs, s'')
  end.

(** ** Runs of the handler *)

(** The effects, the answer and the final ledger of one run. *)
Definition events (w : World) (l : list Transaction) : list Event :=
  trace (snd (run w l)).

Definition response (w : World) (l : list Transaction) : Outcome Response :=
  fst (run w l).

Definition final_ledger (w : World) (l : list Transaction) : list Transaction :=
  ledger (snd (run w l)).

(** The gateway requests issued, the rows offered to the ledger and the
    rows the ledger accepted, in order. *)
Definition gateway_calls (evs : list Event) : list GatewayRequest :=
  flat_map (fun e => match e with Fetch r => [r] | _ => [] end) evs.

Definition ledger_writes (evs : list Event) : list Transaction :=
  flat_map (fun e => match e with InsertTransaction r _ => [r] | _ => [] end) evs.

Definition written (evs : list Event) : list Transaction :=
  flat_map (fun e => match e with InsertTransaction r None => [r] | _ => [] end)
           evs.

(** A failure answer: status 500 and an error object. *)
Definition is_failure (r : Outcome Response) : Prop :=
  exists message, r = Returned (mkResponse 500 jsonHeaders (BodyError message)).

(** The token handed to the identity service, line 50. *)
Definition bearer_token (w : World) : string :=
  Js.replace "Bearer " "" (Js.value_of (req_authorization w)).

(** Identity verification fails: no Authorization header, or the identity
    service answers with an error or without a user. *)
Definition identity_rejected (w : World) : Prop :=
  req_authorization w = None
  \/ auth_error (auth_getUser w (bearer_token w)) <> None
  \/ auth_user (auth_getUser w (bearer_token w)) = None.

(** The gateway call fails: the transport fails or the status is not in
    the 200 range. *)
Definition gateway_failed (w : World) (request : GatewayRequest) : Prop :=
  match gateway w request with
  | FetchThrows _ => True
  | FetchResponse r => response_ok (gw_status r) = false
  end.

(** A gateway request is covered by a row: a pending row with the
    request's order id. *)
Definition covers (row : Transaction) (request : GatewayRequest) : Prop :=
  tx_midtrans_order_id row = snap_order_id (gw_body request)
  /\ tx_status row = "pending".

(** Write-before-call on a trace: every gateway request is preceded by an
    insert the database accepted, of a row that covers it. *)
Definition write_before_call (evs : list Event) : Prop :=
  forall pre request post,
    evs = (pre ++ Fetch request :: post)%list ->
    exists row, In (InsertTransaction row None) pre /\ covers row request.

(** The same, checked event by event with the events already seen. *)
Fixpoint wbc_check (seen evs : list Event) : Prop :=
  match evs with
  | [] => True
  | e :: evs' =>
      match e with
      | Fetch request =>
          exists row, In (InsertTransaction row None) seen /\ covers row request
      | _ => True
      end
      /\ wbc_check (seen ++ [e])%list evs'
  end.

(** A world for examples: configured, a valid bearer token for user
    [abc12345-6789], and whatever plan, packages, profiles and gateway
    answer are given. *)
Definition example_env (k : string) : option string :=
  if String.eqb k "MIDTRANS_SERVER_KEY" then Some "server-key"
  else if String.eqb k "SUPABASE_URL" then Some "https://project.supabase.co"
  else if String.eqb k "SUPABASE_SERVICE_ROLE_KEY" then Some "service-key"
  else if String.eqb k "SUPABASE_ANON_KEY" then Some "anon-key"
  else None.

Definition example_auth (token : string) : AuthResponse :=
  if String.eqb token "good-token"
  then mkAuthResponse (Some (mkUser "abc12345-6789" (Some "u@x.com"))) None
  else mkAuthResponse None (Some "invalid JWT").

Definition example_world (authorization : option string) (paket : string)
    (packages : list PremiumPackage) (profiles : list Profile)
    (answer : GatewayOutcome) : World :=
  {| env := example_env;
     createClient_error := fun _ _ => None;
     req_method := "POST";
     req_authorization := authorization;
     req_body := BodyPaket (Some paket);
     auth_getUser := example_auth;
     db_packages := packages;
     db_packages_error := None;
     db_profiles := profiles;
     db_profiles_error := None;
     db_insert_error := fun _ _ => None;
     now := 1730000000123;
     gateway := fun _ => answer |}.

Definition session_answer : GatewayOutcome :=
  FetchResponse (mkGatewayResponse 201 "" (JsonToken (Some "snap-token"))).

Definition unavailable_answer : GatewayOutcome :=
  FetchResponse
    (mkGatewayResponse 503 "Service Unavailable" (JsonThrows "Unexpected token")).


(** A monthly request that the gateway answers with a session token, one
    that it answers with 503, and one whose token the identity service
    rejects; no package and no profile is stored. *)
Definition world_session : World :=
  example_world (Some "Bearer good-token") "monthly" [] [] session_answer.

Definition world_unavailable : World :=
  example_world (Some "Bearer good-token") "monthly" [] [] unavailable_answer.

Definition world_expired : World :=
  example_world (Some "Bearer expired-token") "monthly" [] [] session_answer.

(** The gateway request of the two authenticated examples. *)
Definition example_request : GatewayRequest :=
  gateway_request "server-key"
    (snapTransaction_of (mkUser "abc12345-6789" (Some "u@x.com")) "monthly"
       40000 "Premium Membership 1 Bulan" "prem-abc12345-1730000000123" None).

(** ** Further vocabulary for runs *)

Definition is_console (e : Event) : bool :=
  match e with
  | ConsoleLog _ | ConsoleError _ => true
  | _ => false
  end.

(** The calls a run makes to the identity service, the database and the
    gateway, in order. *)
Definition external_calls (evs : list Event) : list Event :=
  filter (fun e => negb (is_console e)) evs.

(** The three required environment variables, lines 25 and 30. *)
Definition config_ok (w : World) : bool :=
  Js.truthy_opt (env w "MIDTRANS_SERVER_KEY")
  && Js.truthy_opt (env w "SUPABASE_URL")
  && Js.truthy_opt (env w "SUPABASE_SERVICE_ROLE_KEY").

(** The request passes the checks of lines 15-58 as user [u]: it is not a
    preflight, the server is configured, both clients can be built, the
    Authorization header is present and the identity service answers with
    [u] and no error. *)
Definition authenticated_as (w : World) (u : User) : Prop :=
  req_method w <> "OPTIONS"
  /\ config_ok w = true
  /\ (forall url key, createClient_error w url key = None)
  /\ Js.truthy_opt (req_authorization w) = true
  /\ auth_user (auth_getUser w (bearer_token w)) = Some u
  /\ auth_error (auth_getUser w (bearer_token w)) = None.

(** The test of line 68 fails on [paket]. *)
Definition paket_invalid (paket : option string) : Prop :=
  Js.truthy_opt paket = false \/ is_plan (Js.value_of paket) = false.

(** The failure answer with a given message. *)
Definition failure (message : string) : Outcome Response :=
  Returned (mkResponse 500 jsonHeaders (BodyError message)).

(** The sum of price times quantity over the items of a gateway request. *)
Definition items_total (items : list ItemDetail) : Z :=
  fold_right (fun i acc => item_price i * item_quantity i + acc) 0 items.

(** ** Letter case (UsersManager, line 91) *)

Module Case.

(** [toLowerCase] on one 8-bit character: the letters A-Z and the
    accented capitals 192-222 other than the multiplication sign 215 move
    32 places up; every other character stays. *)
Definition lower_char (c : ascii) : ascii :=
  let n := N_of_ascii c in
  if ((65 <=? n) && (n <=? 90)
      || (192 <=? n) && (n <=? 222) && negb (n =? 215))%N
  then ascii_of_N (n + 32)
  else c.

Fixpoint toLowerCase (s : string) : string :=
  match s with
  | EmptyString => EmptyString
  | String c s' => String (lower_char c) (toLowerCase s')
  end.

End Case.

(** ** Roles: the [user_roles] table, its policies, and the admin page *)

Module Admin.

(** The enum [app_role], migration 20251025135552, line 2. *)
Inductive app_role := admin | premium | biasa.

Definition role_eqb (a b : app_role) : bool :=
  match a, b with
  | admin, admin | premium, premium | biasa, biasa => true
  | _, _ => false
  end.

(** A row of [user_roles] (lines 5-11), as far as it is read. *)
Record UserRole := mkUserRole {
  ur_user_id : string;
  ur_role : app_role
}.

(** A row of [profiles]: the legacy [role] column read by the migration,
    and [premium_until] as an instant (milliseconds since the epoch). *)
Record ProfileRow := mkProfileRow {
  pr_id : string;
  pr_nama : string;
  pr_role : option app_role;
  pr_premium_until : option Z
}.

(** [public.has_role(_user_id, _role)], lines 28-41: whether a row with
    that user and role exists; a NULL user id matches no row. *)
Definition has_role (user_roles : list UserRole) (_user_id : option string)
    (_role : app_role) : bool :=
  match _user_id with
  | None => false
  | Some u =>
      existsb (fun r => String.eqb (ur_user_id r) u && role_eqb (ur_role r) _role)
              user_roles
  end.





(** Step 4 of the migration, lines 17-25: one [user_roles] row for each
    profile whose legacy role is not NULL, with the same role. *)
Definition migrate_role (r : app_role) : app_role :=
  match r with
  | admin => admin
  | premium => premium
  | _ => biasa
  end.

Definition migrate_roles (profiles : list ProfileRow) : list UserRole :=
  flat_map (fun p => match pr_role p with
                     | Some r => [mkUserRole (pr_id p) (migrate_role r)]
                     | None => []
                     end) profiles.

(** *** UsersManager *)

(** A user as the page holds it: the profile with the role looked up. *)
Record PageUser := mkPageUser {
  pu_profile : ProfileRow;
  pu_role : app_role
}.

(** [fetchUsers], lines 69-75: each profile with the role of the first
    [user_roles] row of that user, ['biasa'] when there is none. *)
Definition usersWithRoles (profilesData : list ProfileRow)
    (rolesData : list UserRole) : list PageUser :=
  map (fun profile =>
         let userRole :=
           find (fun r => String.eqb (ur_user_id r) (pr_id profile)) rolesData in
         mkPageUser profile
           (match userRole with
            | Some r => ur_role r
            | None => biasa
            end))
      profilesData.

(** [filteredUsers], lines 90-92. *)
Definition filteredUsers (users : list PageUser) (searchQuery : string)
  : list PageUser :=
  filter (fun user =>
            Js.includes (Case.toLowerCase searchQuery)
                        (Case.toLowerCase (pr_nama (pu_profile user))))
         users.








(** *** The edit form ([onSubmit], lines 94-151) *)

Record Tables := mkTables {
  profiles : list ProfileRow;
  user_roles : list UserRole
}.

(** The form's data: the role and the optional date string. *)
Record RoleForm := mkRoleForm {
  form_role : app_role;
  form_premium_until : option string
}.

(** What the page cannot decide: who is signed in ([auth.uid()]), how the
    date string reads ([new Date(...)], [None] for an invalid date, on
    which [toISOString] throws), whether a policy of [profiles] outside
    these sources lets the caller update a profile, and which of the three
    calls fails on the way to the database. *)
Record Backend := mkBackend {
  caller : option string;
  parse_date : string -> option Z;
  other_profile_policy : string -> bool;
  update_fails : bool;
  delete_fails : bool;
  insert_fails : bool
}.

(** Lines 99-106: the update of the profile, if any. *)
Inductive ProfileUpdate :=
| NoUpdate
| SetPremiumUntil (v : option Z).

Definition profileUpdateData (b : Backend) (data : RoleForm)
  : option ProfileUpdate :=
  if role_eqb (form_role data) premium
     && Js.truthy_opt (form_premium_until data)
  then match parse_date b (Js.value_of (form_premium_until data)) with
       | Some t => Some (SetPremiumUntil (Some t))
       | None => None
       end
  else if negb (role_eqb (form_role data) premium)
       then Some (SetPremiumUntil None)
       else Some NoUpdate.

(** [update profiles set premium_until = v where id = ...]: the rows the
    caller may update are all rows for an admin (policy
    "admins_can_update_all_users", line 146-150), and otherwise those
    another policy grants. *)
Definition update_profiles (b : Backend) (t : Tables) (id : string)
    (v : option Z) : list ProfileRow :=
  if has_role (user_roles t) (caller b) admin || other_profile_policy b id
  then map (fun p => if String.eqb (pr_id p) id
                     then mkProfileRow (pr_id p) (pr_nama p) (pr_role p) v
                     else p)
           (profiles t)
  else profiles t.

(** [delete from user_roles where user_id = ...] under the only policy
    that covers deletes, "Admins can manage all roles" (lines 58-63): an
    admin deletes the rows, for anyone else no row is visible and nothing
    is deleted, without error. *)
Definition delete_user_roles (b : Backend) (roles : list UserRole)
    (id : string) : list UserRole :=
  if has_role roles (caller b) admin
  then filter (fun r => negb (String.eqb (ur_user_id r) id)) roles
  else roles.

(** [insert into user_roles]: refused when the caller is not an admin at
    that moment (the policy's [WITH CHECK]) or when the row exists
    already ([UNIQUE (user_id, role)], line 10). *)
Definition insert_user_role (b : Backend) (roles : list UserRole)
    (row : UserRole) : option (list UserRole) :=
  if has_role roles (caller b) admin
     && negb (has_role roles (Some (ur_user_id row)) (ur_role row))
  then Some (roles ++ [row])%list
  else None.

Inductive Toast := Berhasil | Gagal.

(** [onSubmit]: the tables it leaves and the toast it shows. The foreign
    key of [user_roles] holds for the edited user, who has a profile. *)
Definition onSubmit (b : Backend) (t : Tables) (editingUser : option string)
    (data : RoleForm) : Tables * option Toast :=
  match editingUser with
  | None => (t, None)
  | Some id =>
      match profileUpdateData b data with
      | None => (t, Some Gagal)
      | Some upd =>
          let after_update :=
            match upd with
            | NoUpdate => Some (profiles t)
            | SetPremiumUntil v =>
                if update_fails b then None
                else Some (update_profiles b t id v)
            end in
          match after_update with
          | None => (t, Some Gagal)
          | Some profiles' =>
              if delete_fails b
              then (mkTables profiles' (user_roles t), Some Gagal)
              else
                let roles' := delete_user_roles b (user_roles t) id in
                if insert_fails b
                then (mkTables profiles' roles', Some Gagal)
                else
                  match insert_user_role b roles'
                          (mkUserRole id (form_role data)) with
                  | None => (mkTables profiles' roles', Some Gagal)
                  | Some roles'' => (mkTables profiles' roles'', Some Berhasil)
                  end
          end
      end
  end.

(** *** The sign-up trigger ([handle_new_user], migration 20251025135714) *)





End Admin.

(** ** More examples *)

Definition set_method (m : string) (w : World) : World :=
  mkWorld (env w) (createClient_error w) m (req_authorization w) (req_body w)
          (auth_getUser w) (db_packages w) (db_packages_error w)
          (db_profiles w) (db_profiles_error w) (db_insert_error w) (now w)
          (gateway w).

Definition set_env (e : string -> option string) (w : World) : World :=
  mkWorld e (createClient_error w) (req_method w) (req_authorization w)
          (req_body w) (auth_getUser w) (db_packages w) (db_packages_error w)
          (db_profiles w) (db_profiles_error w) (db_insert_error w) (now w)
          (gateway w).

(** A preflight on a server without configuration, an authenticated
    request on that server, a request for an unknown plan, one whose
    gateway call fails in the transport with an empty message, a yearly
    request with two active yearly packages, and monthly requests of a
    user with one named profile row and with two profile rows. *)
Definition world_unconfigured : World :=
  set_env (fun _ => None) world_session.

Definition world_preflight : World :=
  set_method "OPTIONS" world_unconfigured.

Definition world_weekly : World :=
  example_world (Some "Bearer good-token") "weekly" [] [] session_answer.

Definition world_offline : World :=
  example_world (Some "Bearer good-token") "monthly" [] [] (FetchThrows "").

Definition world_two_packages : World :=
  example_world (Some "Bearer good-token") "yearly"
    [mkPackage 450000 12 "Annual" (Some true) (Some false) 300;
     mkPackage 350000 12 "Annual Promo" (Some true) (Some true) 200;
     mkPackage 300000 12 "Annual Old Promo" (Some true) (Some true) 100]
    [] session_answer.

Definition world_named : World :=
  example_world (Some "Bearer good-token") "monthly" []
    [mkProfile "abc12345-6789" "Budi"] session_answer.

Definition world_two_profiles : World :=
  example_world (Some "Bearer good-token") "monthly" []
    [mkProfile "abc12345-6789" "Budi"; mkProfile "abc12345-6789" "Budi S"]
    session_answer.

Definition named_request : GatewayRequest :=
  gateway_request "server-key"
    (snapTransaction_of (mkUser "abc12345-6789" (Some "u@x.com")) "monthly"
       40000 "Premium Membership 1 Bulan" "prem-abc12345-1730000000123"
       (Some (mkProfile "abc12345-6789" "Budi"))).

Module AdminExamples.
Import Admin.

(** Two users: an admin, and a user with two role rows and a premium date
    in the past. *)
Definition tables0 : Tables :=
  mkTables
    [mkProfileRow "root" "Root" (Some admin) None;
     mkProfileRow "ani" "Ani Wijaya" (Some premium) (Some 100)]
    [mkUserRole "root" admin; mkUserRole "ani" biasa; mkUserRole "ani" premium].

Definition read_date (s : string) : option Z :=
  if String.eqb s "2030-01-01" then Some 1893456000000 else None.

Definition backend_of (who : string) (insert_fault : bool) : Backend :=
  mkBackend (Some who) read_date (fun _ => false) false false insert_fault.

Definition form_premium : RoleForm := mkRoleForm premium (Some "2030-01-01").

Definition form_admin : RoleForm := mkRoleForm admin None.

Definition page0 : list PageUser :=
  usersWithRoles (profiles tables0) (user_roles tables0).

End AdminExamples.

(** * Properties *)

(** ** Strings and decimal printing *)

Section StringFacts.

Lemma append_cancel_l (p a b : string) : p ++ a = p ++ b -> a = b.
Proof.
  induction p as [|c p IH]; simpl; intros H.
  - exact H.
  - injection H as H. auto.
Qed.

Lemma append_nonempty_r (a b : string) : b <> "" -> a ++ b <> "".
Proof.
  destruct a; simpl; [auto | discriminate].
Qed.

Lemma to_int_not_nil (n : Z) : Z.to_int n <> Pos Nil /\ Z.to_int n <> Neg Nil.
Proof.
  destruct n as [|p|p]; simpl; split; try discriminate;
    intros H; injection H as H;
    exact (DecimalPos.Unsigned.to_uint_nonnil p H).
Qed.

(** Reading back the printed number gives the number. *)
Lemma toString_read (n : Z) :
  NilZero.int_of_string (Js.toString n) = Some (Z.to_int n).
Proof.
  unfold Js.toString.
  destruct (to_int_not_nil n) as [H1 H2].
  apply NilZero.isi; assumption.
Qed.

Lemma toString_inj (n m : Z) : Js.toString n = Js.toString m -> n = m.
Proof.
  intros H.
  apply DecimalZ.to_int_inj.
  assert (E : Some (Z.to_int n) = Some (Z.to_int m)).
  { rewrite <- !toString_read. now rewrite H. }
  now injection E.
Qed.

End StringFacts.

(** ** Order identifiers *)

Lemma orderId_of_inj_time (id : string) (t t' : Z) :
  orderId_of id t = orderId_of id t' -> t = t'.
Proof.
  unfold orderId_of. intros H.
  apply toString_inj.
  apply (append_cancel_l "-").
  apply (append_cancel_l (Js.substring0 8 id)).
  apply (append_cancel_l "prem-").
  exact H.
Qed.

(** C7. The order identifier is a function of the principal's id and of the
    millisecond timestamp alone: the string ["prem-"], the first 8
    characters of the id, ["-"] and the timestamp in decimal (reading the
    printed timestamp back gives the timestamp).  Equal inputs give equal
    identifiers, and for one principal two timestamps give the same
    identifier only if they are the same timestamp, so timestamps one
    millisecond apart give different identifiers. *)
Theorem orderId_generation (id : string) (t t' : Z) :
  orderId_of id t = "prem-" ++ Js.substring0 8 id ++ "-" ++ Js.toString t
  /\ NilZero.int_of_string (Js.toString t) = Some (Z.to_int t)
  /\ (orderId_of id t = orderId_of id t' <-> t = t')
  /\ orderId_of id t <> orderId_of id (t + 1).
Proof.
  split; [reflexivity|].
  split; [apply toString_read|].
  split.
  - split; [apply orderId_of_inj_time | intros ->; reflexivity].
  - intros H. apply orderId_of_inj_time in H. lia.
Qed.

Lemma orderId_generation_witness :
  orderId_of "abc12345-6789" 1730000000123 = "prem-abc12345-1730000000123"
  /\ orderId_of "abc12345-6789" 1730000000123
     <> orderId_of "abc12345-6789" 1730000000124.
Proof.
  split.
  - reflexivity.
  - exact (proj2 (proj2 (proj2
             (orderId_generation "abc12345-6789" 1730000000123 0)))).
Defined.

(** ** The default price table *)

(** C3, as the code has it. The default table gives 40000 for the monthly
    plan and 400000 for the yearly plan: ten times the monthly default. *)
Theorem fallback_table :
  fallback_amount "monthly" = 40000
  /\ fallback_amount "yearly" = 400000
  /\ fallback_amount "yearly" = 10 * fallback_amount "monthly".
Proof.
  repeat split.
Qed.

(** C3, as stated, fails: the yearly default is neither 480000 nor twelve
    times the monthly default. *)
Lemma fallback_yearly_not_12_monthly :
  ~ (fallback_amount "monthly" = 40000
     /\ fallback_amount "yearly" = 12 * fallback_amount "monthly"
     /\ fallback_amount "yearly" = 480000).
Proof.
  intros (_ & H & _). vm_compute in H. discriminate H.
Qed.

(** ** The package query *)

Module DbFacts.
Import Db.

Lemma popular_rank_cases (b : option bool) :
  popular_rank b = 0 \/ popular_rank b = 1 \/ popular_rank b = 2.
Proof.
  destruct b as [[|]|]; simpl; auto.
Qed.

Lemma before_iff (a b : PremiumPackage) :
  Before a b <->
  popular_rank (pkg_is_popular b) < popular_rank (pkg_is_popular a)
  \/ (popular_rank (pkg_is_popular a) = popular_rank (pkg_is_popular b)
      /\ pkg_created_at b <= pkg_created_at a).
Proof.
  unfold Before, before.
  rewrite orb_true_iff, andb_true_iff, Z.ltb_lt, Z.eqb_eq, Z.leb_le.
  reflexivity.
Qed.

Lemma before_total (a b : PremiumPackage) : before a b = false -> Before b a.
Proof.
  intros H. apply before_iff.
  assert (N : ~ Before a b) by (unfold Before; rewrite H; discriminate).
  rewrite before_iff in N. lia.
Qed.

Lemma before_trans (a b c : PremiumPackage) :
  Before a b -> Before b c -> Before a c.
Proof.
  rewrite !before_iff. lia.
Qed.

Lemma insert_row_perm (x : PremiumPackage) (l : list PremiumPackage) :
  Permutation (x :: l) (insert_row x l).
Proof.
  induction l as [|y l IH]; simpl.
  - apply Permutation_refl.
  - destruct (before x y).
    + apply Permutation_refl.
    + eapply perm_trans; [apply perm_swap|].
      apply perm_skip. exact IH.
Qed.

Lemma order_rows_perm (l : list PremiumPackage) :
  Permutation l (order_rows l).
Proof.
  induction l as [|x l IH]; simpl.
  - apply perm_nil.
  - eapply perm_trans; [apply perm_skip; exact IH|].
    apply insert_row_perm.
Qed.

Lemma insert_row_sorted (x : PremiumPackage) (l : list PremiumPackage) :
  StronglySorted Before l -> StronglySorted Before (insert_row x l).
Proof.
  induction 1 as [|y l Hs IH Hy]; simpl.
  - constructor; constructor.
  - destruct (before x y) eqn:E.
    + constructor.
      * constructor; assumption.
      * constructor; [exact E|].
        rewrite Forall_forall in *. intros z Hz.
        apply before_trans with y; [exact E | auto].
    + constructor; [exact IH|].
      rewrite Forall_forall in *. intros z Hz.
      apply Permutation_in with (l' := x :: l) in Hz;
        [| apply Permutation_sym, insert_row_perm].
      destruct Hz as [<- | Hz]; [apply before_total; exact E | auto].
Qed.

Lemma order_rows_sorted (l : list PremiumPackage) :
  StronglySorted Before (order_rows l).
Proof.
  induction l as [|x l IH]; simpl.
  - constructor.
  - apply insert_row_sorted. exact IH.
Qed.

(** The row the query returns under [.limit(1)]: a kept row that may stand
    before every kept row. *)
Lemma first_row (d : Z) (rows : list PremiumPackage) (r : PremiumPackage) :
  firstn 1 (order_rows (filter (matches d) rows)) = [r] ->
  In r rows /\ matches d r = true
  /\ forall r', In r' rows -> matches d r' = true -> Before r r'.
Proof.
  intros H.
  pose proof (order_rows_perm (filter (matches d) rows)) as P.
  pose proof (order_rows_sorted (filter (matches d) rows)) as S.
  destruct (order_rows (filter (matches d) rows)) as [|r0 rest]; [discriminate|].
  simpl in H. injection H as ->.
  assert (Hr : In r (filter (matches d) rows)).
  { apply Permutation_in with (l := r :: rest);
      [apply Permutation_sym; exact P | left; reflexivity]. }
  apply filter_In in Hr. destruct Hr as [Hin Hm].
  split; [exact Hin|]. split; [exact Hm|].
  intros r' Hin' Hm'.
  assert (Hr' : In r' (r :: rest)).
  { apply Permutation_in with (l := filter (matches d) rows); [exact P|].
    apply filter_In. split; assumption. }
  destruct Hr' as [<- | Hr'].
  - apply before_iff. lia.
  - inversion S as [|? ? _ Hall]; subst.
    rewrite Forall_forall in Hall. apply Hall. exact Hr'.
Qed.

(** Some matching row gives a non-empty answer. *)
Lemma first_row_exists (d : Z) (rows : list PremiumPackage) (p : PremiumPackage) :
  In p rows -> matches d p = true ->
  exists r, firstn 1 (order_rows (filter (matches d) rows)) = [r].
Proof.
  intros Hin Hm.
  pose proof (order_rows_perm (filter (matches d) rows)) as P.
  destruct (order_rows (filter (matches d) rows)) as [|r0 rest].
  - apply Permutation_sym, Permutation_nil in P.
    assert (Hp : In p (filter (matches d) rows))
      by (apply filter_In; split; assumption).
    rewrite P in Hp. destruct Hp.
  - exists r0. reflexivity.
Qed.

(** The answer of the package query, by cases on the store. *)
Lemma select_package_cases (w : World) (d : Z) :
  (exists e, db_packages_error w = Some e
             /\ select_package w d = mkQueryResponse None (Some e))
  \/ (db_packages_error w = None
      /\ filter (matches d) (db_packages w) = []
      /\ select_package w d = mkQueryResponse None None)
  \/ (exists r, db_packages_error w = None
      /\ firstn 1 (order_rows (filter (matches d) (db_packages w))) = [r]
      /\ select_package w d = mkQueryResponse (Some r) None).
Proof.
  unfold select_package.
  destruct (db_packages_error w) as [e|].
  - left. exists e. auto.
  - right.
    pose proof (order_rows_perm (filter (matches d) (db_packages w))) as P.
    destruct (order_rows (filter (matches d) (db_packages w))) as [|r0 rest].
    + left. apply Permutation_sym, Permutation_nil in P. auto.
    + right. exists r0. auto.
Qed.

End DbFacts.

(** ** Price resolution *)

Section Pricing.
Import Db DbFacts.

(** Price resolution never throws, leaves the ledger alone, and its quote
    is the returned row's price and name when the query gives a row and the
    default table otherwise. *)
Lemma resolve_price_result (w : World) (paket : string) (s : State) :
  exists evs,
    resolve_price w paket s =
      (Returned
         (match error (select_package w (plan_duration paket)),
                data (select_package w (plan_duration paket)) with
          | None, Some r => (pkg_price r, pkg_name r)
          | _, _ => (fallback_amount paket, fallback_name paket)
          end),
       mkState (ledger s) (trace s ++ evs)%list).
Proof.
  unfold resolve_price, query_package, bind, emit, ret, console_error; simpl.
  destruct (select_package w (plan_duration paket)) as [[r|] [e|]]; simpl;
    eexists; rewrite <- ?app_assoc; simpl; reflexivity.
Qed.

Lemma resolve_price_fallback (w : World) (paket : string) (s : State) :
  db_packages_error w <> None
  \/ filter (matches (plan_duration paket)) (db_packages w) = [] ->
  fst (resolve_price w paket s)
  = Returned (fallback_amount paket, fallback_name paket).
Proof.
  intros H.
  destruct (resolve_price_result w paket s) as [evs ->]. simpl.
  destruct (select_package_cases w (plan_duration paket))
    as [(e & He & ->) | [(He & Hf & ->) | (r & He & Hf & ->)]];
    simpl; try reflexivity.
  destruct H as [H | H]; [congruence|].
  rewrite H in Hf. discriminate Hf.
Qed.

Lemma resolve_price_found (w : World) (paket : string) (s : State)
    (p : PremiumPackage) :
  db_packages_error w = None ->
  In p (db_packages w) ->
  matches (plan_duration paket) p = true ->
  exists r,
    In r (db_packages w)
    /\ matches (plan_duration paket) r = true
    /\ (forall r', In r' (db_packages w) ->
                   matches (plan_duration paket) r' = true -> Before r r')
    /\ fst (resolve_price w paket s) = Returned (pkg_price r, pkg_name r).
Proof.
  intros He Hin Hm.
  destruct (resolve_price_result w paket s) as [evs ->]. simpl.
  destruct (first_row_exists _ _ _ Hin Hm) as [r Hr].
  exists r.
  destruct (first_row _ _ _ Hr) as (H1 & H2 & H3).
  repeat (split; [assumption|]).
  unfold select_package. rewrite He, Hr. reflexivity.
Qed.

End Pricing.

(** C9. For the monthly plan, when the package query fails or no active
    package of one month exists, the quote is 40000 and
    ["Premium Membership 1 Bulan"]. *)
Theorem monthly_fallback_quote (w : World) (s : State) :
  db_packages_error w <> None
  \/ filter (Db.matches 1) (db_packages w) = [] ->
  fst (resolve_price w "monthly" s)
  = Returned (40000, "Premium Membership 1 Bulan").
Proof.
  intros H.
  exact (resolve_price_fallback w "monthly" s H).
Qed.

Lemma monthly_fallback_quote_witness :
  fst (resolve_price
         (example_world (Some "Bearer good-token") "monthly" [] [] session_answer)
         "monthly" (mkState [] []))
  = Returned (40000, "Premium Membership 1 Bulan").
Proof.
  apply monthly_fallback_quote. right. reflexivity.
Defined.

(** C4, as the code has it. For a valid plan price resolution never fails
    and returns a quote.  The quote has a positive amount and a non-empty
    name whenever the query fails or every active package of the plan's
    duration has a positive price and a non-empty name (in particular when
    there is none). *)
Theorem resolve_price_usable (w : World) (paket : string) (s : State) :
  is_plan paket = true ->
  exists amount name,
    fst (resolve_price w paket s) = Returned (amount, name)
    /\ (db_packages_error w <> None
        \/ (forall p, In p (db_packages w) ->
                      Db.matches (plan_duration paket) p = true ->
                      0 < pkg_price p /\ pkg_name p <> "") ->
        0 < amount /\ name <> "").
Proof.
  intros Hplan.
  assert (Hfb : 0 < fallback_amount paket /\ fallback_name paket <> "").
  { unfold fallback_amount, fallback_name.
    destruct (String.eqb paket "monthly"); split; (lia || discriminate). }
  destruct (DbFacts.select_package_cases w (plan_duration paket))
    as [(e & He & Hs) | [(He & Hf & Hs) | (r & He & Hf & Hs)]].
  - exists (fallback_amount paket), (fallback_name paket). split.
    + apply resolve_price_fallback. left. congruence.
    + intros _. exact Hfb.
  - exists (fallback_amount paket), (fallback_name paket). split.
    + apply resolve_price_fallback. right. exact Hf.
    + intros _. exact Hfb.
  - exists (pkg_price r), (pkg_name r).
    destruct (DbFacts.first_row _ _ _ Hf) as (Hin & Hm & _).
    split.
    + destruct (resolve_price_result w paket s) as [evs ->]. simpl.
      rewrite Hs. reflexivity.
    + intros [H | H]; [congruence|]. exact (H r Hin Hm).
Qed.

Lemma resolve_price_usable_witness :
  exists amount name,
    fst (resolve_price
           (example_world (Some "Bearer good-token") "yearly"
              [mkPackage 350000 12 "Annual Promo" (Some true) (Some true) 7]
              [] session_answer)
           "yearly" (mkState [] []))
    = Returned (amount, name)
    /\ 0 < amount /\ name <> "".
Proof.
  destruct (resolve_price_usable
              (example_world (Some "Bearer good-token") "yearly"
                 [mkPackage 350000 12 "Annual Promo" (Some true) (Some true) 7]
                 [] session_answer)
              "yearly" (mkState [] []) eq_refl)
    as (amount & name & Hq & Hok).
  exists amount, name. split; [exact Hq|].
  apply Hok. right.
  intros p [<- | []] _. split; [reflexivity | discriminate].
Defined.

(** C4, as stated, fails: an active one-month package stored with price 0
    and an empty name is quoted as it is. *)
Lemma free_package_quote :
  ~ (forall (w : World) (paket : string) (s : State),
       is_plan paket = true ->
       exists amount name,
         fst (resolve_price w paket s) = Returned (amount, name)
         /\ 0 < amount /\ name <> "").
Proof.
  intros H.
  destruct (H (example_world (Some "Bearer good-token") "monthly"
                 [mkPackage 0 1 "" (Some true) (Some false) 7]
                 [] session_answer)
              "monthly" (mkState [] []) eq_refl)
    as (amount & name & Hq & Hpos & _).
  vm_compute in Hq. injection Hq as <- _. lia.
Qed.

(** X13. When the query succeeds and some active package has the plan's
    duration, the quote is the stored price and name of such a package, one
    that no other such package precedes in the query's order.  If no such
    package has a NULL [is_popular], the quoted package is flagged popular
    as soon as one of them is, and is the most recently created among those
    with its flag. *)
Lemma quote_uses_preferred_package (w : World) (paket : string) (s : State)
    (p : PremiumPackage) :
  db_packages_error w = None ->
  In p (db_packages w) ->
  Db.matches (plan_duration paket) p = true ->
  exists r,
    In r (db_packages w)
    /\ Db.matches (plan_duration paket) r = true
    /\ fst (resolve_price w paket s) = Returned (pkg_price r, pkg_name r)
    /\ ((forall r', In r' (db_packages w) ->
                    Db.matches (plan_duration paket) r' = true ->
                    pkg_is_popular r' <> None) ->
        (forall r', In r' (db_packages w) ->
                    Db.matches (plan_duration paket) r' = true ->
                    (pkg_is_popular r' = Some true ->
                     pkg_is_popular r = Some true)
                    /\ (pkg_is_popular r' = pkg_is_popular r ->
                        pkg_created_at r' <= pkg_created_at r))).
Proof.
  intros He Hin Hm.
  destruct (resolve_price_found w paket s p He Hin Hm)
    as (r & Hr & Hmr & Hbest & Hq).
  exists r. repeat (split; [assumption|]).
  intros Hnn r' Hin' Hm'.
  pose proof (Hbest r' Hin' Hm') as Hb.
  apply DbFacts.before_iff in Hb.
  pose proof (Hnn r Hr Hmr) as Nr.
  pose proof (Hnn r' Hin' Hm') as Nr'.
  destruct (pkg_is_popular r) as [[|]|], (pkg_is_popular r') as [[|]|];
    simpl in Hb; split; intros E; try congruence; try lia.
Qed.

(** The spec's example: a single active yearly package is quoted. *)
Example annual_promo_quote :
  fst (resolve_price
         (example_world (Some "Bearer good-token") "yearly"
            [mkPackage 350000 12 "Annual Promo" (Some true) (Some false) 7]
            [] session_answer)
         "yearly" (mkState [] []))
  = Returned (350000, "Annual Promo").
Proof. reflexivity. Qed.

(** C6 at a store where one active yearly package is flagged popular and an
    older one has a NULL [is_popular]: the query puts the NULL flag first,
    and the quote is the unflagged package, not the popular one. *)
Theorem null_popular_flag_wins :
  fst (resolve_price
         (example_world (Some "Bearer good-token") "yearly"
            [mkPackage 350000 12 "Annual Promo" (Some true) (Some true) 200;
             mkPackage 500000 12 "Annual Regular" (Some true) None 100]
            [] session_answer)
         "yearly" (mkState [] []))
  = Returned (500000, "Annual Regular").
Proof. reflexivity. Qed.

(** ** Runs of the handler *)

Ltac unfold_handler :=
  cbv beta iota zeta delta
    [run events response final_ledger handler try_catch pipeline on_error
     bind ret throw emit console_log console_error getUser createClient
     read_body fetch resolve_price query_package query_profile
     insert_transaction ledger trace fst snd negb orb andb].

(** Case analysis along the handler's tests, innermost test first. *)
Ltac break_handler :=
  repeat (unfold_handler;
          match goal with
          | |- context [match ?x with _ => _ end] =>
              lazymatch x with
              | context [match _ with _ => _ end] => fail
              | _ => destruct x eqn:?
              end
          end);
  unfold_handler; simpl.

(** The handler always answers: no exception escapes it. *)
Lemma handler_returns (w : World) (l : list Transaction) :
  exists r, response w l = Returned r.
Proof.
  break_handler; eauto.
Qed.

(** A run only appends to the trace it starts from, and is otherwise the
    run on the empty trace. *)
Lemma handler_frame (w : World) (l : list Transaction) (t : list Event) :
  handler w (mkState l t)
  = (response w l, mkState (final_ledger w l) (t ++ events w l)).
Proof.
  break_handler; rewrite ?app_nil_r, <- ?app_assoc; reflexivity.
Qed.

(** The ledger after a run is the ledger before it followed by the rows
    the database accepted. *)
Lemma final_ledger_written (w : World) (l : list Transaction) :
  final_ledger w l = (l ++ written (events w l))%list.
Proof.
  break_handler; rewrite ?app_nil_r; reflexivity.
Qed.

(** *** Write-before-call *)

Lemma wbc_check_sound (evs seen : list Event) :
  wbc_check seen evs ->
  forall pre request post,
    evs = (pre ++ Fetch request :: post)%list ->
    exists row,
      In (InsertTransaction row None) (seen ++ pre) /\ covers row request.
Proof.
  revert seen.
  induction evs as [|e evs IH]; intros seen H pre request post E.
  - destruct pre; discriminate E.
  - destruct H as [He Hrest].
    destruct pre as [|e' pre]; simpl in E; injection E as -> ->.
    + rewrite app_nil_r. exact He.
    + destruct (IH _ Hrest pre request post eq_refl) as (row & Hin & Hc).
      exists row. split; [|exact Hc].
      rewrite <- app_assoc in Hin. exact Hin.
Qed.

Lemma wbc_check_write_before_call (evs : list Event) :
  wbc_check [] evs -> write_before_call evs.
Proof.
  intros H pre request post E.
  exact (wbc_check_sound evs [] H pre request post E).
Qed.

Lemma write_before_call_app (a b : list Event) :
  write_before_call a -> write_before_call b -> write_before_call (a ++ b).
Proof.
  intros Ha Hb pre request post E.
  apply app_eq_app in E. destruct E as (m & [[E1 E2] | [E1 E2]]).
  - destruct m as [|e m]; simpl in E2.
    + destruct (Hb [] request post (eq_sym E2)) as (row & [] & _).
    + injection E2 as <- E2.
      exact (Ha pre request m E1).
  - destruct (Hb m request post E2) as (row & Hin & Hc).
    exists row. split; [|exact Hc].
    rewrite E1. apply in_or_app. right. exact Hin.
Qed.

Ltac find_event :=
  cbn [In]; repeat first [left; reflexivity | right].

Lemma run_write_before_call (w : World) (l : list Transaction) :
  write_before_call (events w l).
Proof.
  apply wbc_check_write_before_call.
  break_handler;
    repeat match goal with
           | |- True => exact I
           | |- _ /\ _ => split
           | |- ex _ => eexists
           | |- In _ _ => find_event
           | |- _ \/ _ => find_event
           | |- covers _ _ => split
           | |- _ = _ => reflexivity
           end.
Qed.

(** An insert the database refused is the end of the run: no gateway call
    follows, and the answer is a failure. *)
Lemma refused_insert_aborts (w : World) (l : list Transaction)
    (row : Transaction) (e : string) :
  In (InsertTransaction row (Some e)) (events w l) ->
  gateway_calls (events w l) = [] /\ is_failure (response w l).
Proof.
  break_handler;
    intros H; split; try reflexivity; try (eexists; reflexivity);
    exfalso; intuition congruence.
Qed.

(** *** The server *)

Lemma written_app (a b : list Event) :
  written (a ++ b) = (written a ++ written b)%list.
Proof.
  unfold written. apply flat_map_app.
Qed.

Lemma In_written (row : Transaction) (evs : list Event) :
  In (InsertTransaction row None) evs -> In row (written evs).
Proof.
  intros H. unfold written. apply in_flat_map.
  exists (InsertTransaction row None). split; [exact H | left; reflexivity].
Qed.

(** Serving requests keeps write-before-call on the accumulated trace and
    keeps the ledger equal to its start followed by the accepted rows. *)
Lemma serve_invariant (ws : list World) (l0 : list Transaction) (s : State) :
  write_before_call (trace s) ->
  ledger s = (l0 ++ written (trace s))%list ->
  write_before_call (trace (snd (serve ws s)))
  /\ ledger (snd (serve ws s))
     = (l0 ++ written (trace (snd (serve ws s))))%list.
Proof.
  revert s.
  induction ws as [|w ws IH]; intros [l t] Hw Hl; simpl in *.
  - split; assumption.
  - rewrite handler_frame.
    destruct (serve ws (mkState (final_ledger w l) (t ++ events w l)))
      as [rs s''] eqn:E.
    change s'' with (snd (rs, s'')). rewrite <- E.
    apply IH; simpl.
    + apply write_before_call_app; [exact Hw | apply run_write_before_call].
    + rewrite final_ledger_written, Hl, written_app, app_assoc. reflexivity.
Qed.

(** C1. Write-before-call.  Over any sequence of requests served from any
    ledger: every gateway request in the trace is preceded by an insert
    that the database accepted, of a pending row carrying the request's
    order id; a pending row with that order id is in the ledger at the end;
    and in any single run, an insert the database refused is followed by no
    gateway call and answered with a failure. *)
Theorem write_before_call_holds (ws : list World) (l0 : list Transaction) :
  let s' := snd (serve ws (mkState l0 [])) in
  (forall pre request post,
      trace s' = (pre ++ Fetch request :: post)%list ->
      exists row,
        In (InsertTransaction row None) pre
        /\ tx_midtrans_order_id row = snap_order_id (gw_body request)
        /\ tx_status row = "pending")
  /\ (forall request,
         In (Fetch request) (trace s') ->
         exists row,
           In row (ledger s')
           /\ tx_midtrans_order_id row = snap_order_id (gw_body request)
           /\ tx_status row = "pending")
  /\ (forall w l row e,
         In (InsertTransaction row (Some e)) (events w l) ->
         gateway_calls (events w l) = [] /\ is_failure (response w l)).
Proof.
  intros s'.
  destruct (serve_invariant ws l0 (mkState l0 [])) as [Hw Hl].
  { intros pre request post E. destruct pre; discriminate E. }
  { simpl. rewrite app_nil_r. reflexivity. }
  fold s' in Hw, Hl.
  split; [exact Hw|]. split.
  - intros request Hin.
    apply in_split in Hin. destruct Hin as (pre & post & E).
    destruct (Hw pre request post E) as (row & Hrow & Hc).
    exists row. split; [|exact Hc].
    rewrite Hl. apply in_or_app. right.
    apply In_written. rewrite E. apply in_or_app. left. exact Hrow.
  - intros w l row e. apply refused_insert_aborts.
Qed.

(** *** Identity verification *)

(** C5. When identity verification fails (no Authorization header, or the
    identity service answers with an error or without a user), the run
    offers no row to the ledger, leaves the ledger as it was and issues no
    gateway request; and, the request not being a CORS preflight, the
    answer is a failure. *)
Theorem unauthenticated_no_effects (w : World) (l : list Transaction) :
  identity_rejected w ->
  ledger_writes (events w l) = []
  /\ gateway_calls (events w l) = []
  /\ final_ledger w l = l
  /\ (req_method w <> "OPTIONS" -> is_failure (response w l)).
Proof.
  unfold identity_rejected, bearer_token.
  break_handler; intros H;
    try (exfalso;
         destruct H as [H | [H | H]];
         [ rewrite H in *; discriminate | congruence | congruence ]);
    repeat split;
    try (intros _; eexists; reflexivity).
  intros N. exfalso. apply N. apply String.eqb_eq. assumption.
Qed.

(** *** Gateway failures *)

(** Splits a membership hypothesis on an explicit trace and drops the
    events of another kind than the one looked for. *)
Ltac pick_event H :=
  simpl in H;
  repeat match type of H with
         | _ \/ _ => destruct H as [H | H]
         end;
  try discriminate H; try contradiction.

(** C2, as the code has it. When the gateway answers the session request
    with a status outside the 200 range, the answer to the client has
    status 500 and its error message is
    ["Midtrans API Error (<status>): <gateway body>"]: the gateway's status
    code and raw body are sent to the client, and both are also logged. *)
Theorem gateway_rejection_response (w : World) (l : list Transaction)
    (request : GatewayRequest) (r : GatewayResponse) :
  In (Fetch request) (events w l) ->
  gateway w request = FetchResponse r ->
  response_ok (gw_status r) = false ->
  response w l
  = Returned
      (mkResponse 500 jsonHeaders
         (BodyError ("Midtrans API Error (" ++ Js.toString (gw_status r)
                     ++ "): " ++ gw_text r)))
  /\ In (ConsoleError ["Midtrans API error status:"; Js.toString (gw_status r)])
        (events w l)
  /\ In (ConsoleError ["Midtrans API error response:"; gw_text r])
        (events w l).
Proof.
  break_handler; intros Hin Hg Hok; pick_event Hin;
    injection Hin as <-;
    match goal with
    | E : gateway w _ = _ |- _ =>
        tryif constr_eq E Hg then fail else rewrite E in Hg
    end;
    try discriminate Hg; injection Hg as <-;
    try congruence;
    repeat split; find_event.
Qed.

(** C8. Whenever the gateway request has been issued, the ledger at the
    end of the run is the initial ledger followed by one row, pending and
    carrying the request's order id: nothing removes or updates it.  When
    the gateway call then fails (transport failure, or a status outside
    the 200 range such as 503), the answer is a failure and the row is
    still there. *)
Theorem pending_row_survives_gateway_failure (w : World)
    (l : list Transaction) (request : GatewayRequest) :
  In (Fetch request) (events w l) ->
  exists row,
    final_ledger w l = (l ++ [row])%list
    /\ tx_status row = "pending"
    /\ tx_midtrans_order_id row = snap_order_id (gw_body request)
    /\ (gateway_failed w request -> is_failure (response w l)).
Proof.
  break_handler; intros Hin; pick_event Hin;
    injection Hin as <-;
    eexists; (split; [reflexivity|]); (split; [reflexivity|]);
    (split; [reflexivity|]);
    unfold gateway_failed;
    match goal with
    | E : gateway w _ = _ |- _ => rewrite E
    end;
    intros Hf; try congruence; eexists; reflexivity.
Qed.

(** *** The profile lookup *)

Lemma select_profile_missing (w : World) (id : string) :
  db_profiles_error w <> None
  \/ filter (fun p => String.eqb (profile_id p) id) (db_profiles w) = [] ->
  data (Db.select_profile w id) = None.
Proof.
  unfold Db.select_profile.
  intros [H | H].
  - destruct (db_profiles_error w); [reflexivity | congruence].
  - rewrite H. destruct (db_profiles_error w); reflexivity.
Qed.

(** C10. When the run reaches the profile lookup and the lookup fails or
    finds no row for the user, the run still offers exactly one row to the
    ledger, and, the database accepting it, issues exactly one gateway
    request, whose customer first name is ["User"]. *)
Theorem profile_lookup_not_fatal (w : World) (l : list Transaction)
    (id : string) :
  In (SelectProfile id) (events w l) ->
  db_profiles_error w <> None
  \/ filter (fun p => String.eqb (profile_id p) id) (db_profiles w) = [] ->
  exists row,
    ledger_writes (events w l) = [row]
    /\ (db_insert_error w row l = None ->
        exists request,
          gateway_calls (events w l) = [request]
          /\ snap_first_name (gw_body request) = "User").
Proof.
  break_handler; intros Hin Hmiss; pick_event Hin;
    injection Hin as <-;
    apply select_profile_missing in Hmiss;
    eexists; (split; [reflexivity|]);
    intros Hins; try congruence;
    eexists; (split; [reflexivity|]);
    simpl; rewrite Hmiss; reflexivity.
Qed.

(** ** The examples *)

Example session_run :
  response world_session []
  = Returned (mkResponse 200 jsonHeaders
                (BodySession (Some "snap-token") "prem-abc12345-1730000000123"))
  /\ gateway_calls (events world_session []) = [example_request]
  /\ final_ledger world_session []
     = [mkTransaction "abc12345-6789" "monthly" 40000
          "prem-abc12345-1730000000123" "pending"].
Proof. repeat split. Qed.

Lemma write_before_call_holds_witness :
  exists row,
    In row (ledger (snd (serve [world_session; world_unavailable]
                               (mkState [] []))))
    /\ tx_midtrans_order_id row = snap_order_id (gw_body example_request)
    /\ tx_status row = "pending".
Proof.
  apply (proj1 (proj2 (write_before_call_holds
                         [world_session; world_unavailable] []))
           example_request).
  vm_compute. find_event.
Defined.

Lemma unauthenticated_no_effects_witness :
  ledger_writes (events world_expired []) = []
  /\ gateway_calls (events world_expired []) = []
  /\ final_ledger world_expired [] = []
  /\ (req_method world_expired <> "OPTIONS" ->
      is_failure (response world_expired [])).
Proof.
  apply unauthenticated_no_effects.
  right; left. vm_compute. discriminate.
Defined.

Lemma gateway_rejection_response_witness :
  response world_unavailable []
  = Returned (mkResponse 500 jsonHeaders
                (BodyError "Midtrans API Error (503): Service Unavailable")).
Proof.
  assert (Hin : In (Fetch example_request) (events world_unavailable []))
    by (vm_compute; find_event).
  exact (proj1 (gateway_rejection_response world_unavailable []
                  example_request
                  (mkGatewayResponse 503 "Service Unavailable"
                     (JsonThrows "Unexpected token"))
                  Hin eq_refl eq_refl)).
Defined.

(** C2, as stated, fails: when the gateway answers 503 with the body
    ["Service Unavailable"], the error message sent to the client contains
    both the status code and the body. *)
Lemma gateway_detail_reaches_client :
  exists message,
    response world_unavailable []
    = Returned (mkResponse 500 jsonHeaders (BodyError message))
    /\ gateway world_unavailable example_request
       = FetchResponse (mkGatewayResponse 503 "Service Unavailable"
                          (JsonThrows "Unexpected token"))
    /\ Js.includes (Js.toString 503) message = true
    /\ Js.includes "Service Unavailable" message = true.
Proof.
  exists "Midtrans API Error (503): Service Unavailable".
  repeat split.
Qed.

Lemma pending_row_survives_gateway_failure_witness :
  exists row,
    final_ledger world_unavailable [] = [row]
    /\ tx_status row = "pending"
    /\ tx_midtrans_order_id row = "prem-abc12345-1730000000123"
    /\ is_failure (response world_unavailable []).
Proof.
  destruct (pending_row_survives_gateway_failure world_unavailable []
              example_request) as (row & H1 & H2 & H3 & H4).
  - vm_compute. find_event.
  - exists row. repeat split; try assumption.
    apply H4. reflexivity.
Defined.

Lemma profile_lookup_not_fatal_witness :
  exists row,
    ledger_writes (events world_session []) = [row]
    /\ (db_insert_error world_session row [] = None ->
        exists request,
          gateway_calls (events world_session []) = [request]
          /\ snap_first_name (gw_body request) = "User").
Proof.
  apply (profile_lookup_not_fatal world_session [] "abc12345-6789").
  - vm_compute. find_event.
  - right. reflexivity.
Defined.

(** * Further properties of the handler *)

Lemma or_else_nonempty (a d : string) : d <> "" -> Js.or_else a d <> "".
Proof.
  intros Hd. unfold Js.or_else, Js.truthy.
  destruct (String.eqb_spec a ""); simpl; assumption.
Qed.

Lemma or_else_cases (a d : string) :
  Js.or_else a d = if String.eqb a "" then d else a.
Proof.
  unfold Js.or_else, Js.truthy. destruct (String.eqb a ""); reflexivity.
Qed.

(** X1. Every request is answered and no exception escapes.  The answer is
    the empty 200 of a preflight, a 200 with the session object, or a 500
    with an error object whose message is never empty; it always carries
    the two CORS headers, and outside a preflight the JSON content type. *)
Theorem every_request_answered (w : World) (l : list Transaction) :
  exists r,
    response w l = Returned r
    /\ incl corsHeaders (resp_headers r)
    /\ match resp_body r with
       | BodyNull =>
           resp_status r = 200 /\ req_method w = "OPTIONS"
           /\ resp_headers r = corsHeaders
       | BodySession _ _ =>
           resp_status r = 200 /\ req_method w <> "OPTIONS"
           /\ resp_headers r = jsonHeaders
       | BodyError message =>
           resp_status r = 500 /\ req_method w <> "OPTIONS"
           /\ resp_headers r = jsonHeaders /\ message <> ""
       end.
Proof.
  assert (Hcors : incl corsHeaders jsonHeaders)
    by (unfold jsonHeaders; apply incl_appl, incl_refl).
  break_handler; eexists; (split; [reflexivity|]); simpl;
    (split; [first [exact Hcors | apply incl_refl]|]);
    repeat match goal with
           | |- _ /\ _ => split
           | |- _ = _ => first [reflexivity | apply String.eqb_eq; assumption]
           | |- _ <> "" =>
               first [discriminate | apply or_else_nonempty; discriminate]
           | |- req_method w <> _ =>
               apply String.eqb_neq; assumption
           end.
Qed.

(** X2. A CORS preflight is answered at once: no configuration is read, no
    service is called, nothing is logged and the ledger is untouched, even
    on a server that is not configured. *)
Theorem preflight_has_no_effects (w : World) (l : list Transaction) :
  req_method w = "OPTIONS" ->
  run w l = (Returned (mkResponse 200 corsHeaders BodyNull), mkState l []).
Proof.
  intros H. unfold run, handler. rewrite H. reflexivity.
Qed.

(** X3. On a server that lacks one of the three required environment
    variables, every request other than a preflight fails before any
    call to the identity service, the database or the gateway; a missing
    gateway key is reported first. *)
Theorem misconfigured_server_fails_early (w : World) (l : list Transaction) :
  req_method w <> "OPTIONS" ->
  config_ok w = false ->
  external_calls (events w l) = []
  /\ final_ledger w l = l
  /\ response w l
     = failure (if Js.truthy_opt (env w "MIDTRANS_SERVER_KEY")
                then "Supabase configuration not found"
                else "Midtrans server key not configured").
Proof.
  unfold config_ok, failure.
  break_handler; intros Hm Hc;
    try (exfalso; apply Hm; apply String.eqb_eq; assumption);
    try discriminate Hc;
    repeat split.
Qed.

(** X4. An authenticated request whose body has no [paket], an empty one
    or one that is neither ['monthly'] nor ['yearly'] fails with the
    validation message; the identity service is the only service called:
    no package or profile is read, nothing is written, the gateway is not
    called. *)
Theorem invalid_paket_rejected (w : World) (l : list Transaction) (u : User)
    (paket : option string) :
  authenticated_as w u ->
  req_body w = BodyPaket paket ->
  paket_invalid paket ->
  response w l = failure "Invalid paket. Must be 'monthly' or 'yearly'"
  /\ external_calls (events w l) = [AuthGetUser (bearer_token w)]
  /\ final_ledger w l = l.
Proof.
  unfold authenticated_as, paket_invalid, config_ok, bearer_token, failure.
  intros (Hm & Hc & Hcc & Hh & Hu & He) Hb Hp.
  apply andb_true_iff in Hc. destruct Hc as [Hc Hc3].
  apply andb_true_iff in Hc. destruct Hc as [Hc1 Hc2].
  apply String.eqb_neq in Hm.
  unfold_handler.
  rewrite Hm, Hc1, Hc2, Hc3, !Hcc, Hh, Hu, He, ?Hcc, Hb. simpl.
  destruct Hp as [Hp | Hp]; rewrite Hp; simpl.
  - repeat split.
  - destruct (Js.truthy_opt paket); repeat split.
Qed.

(** X5. The identity service is the first service a run calls, with the
    token taken from the Authorization header; any further call (a
    database read or write, the gateway) happens only when the identity
    service answered with a user and no error. *)
Theorem identity_checked_first (w : World) (l : list Transaction) :
  external_calls (events w l) = []
  \/ exists rest,
       external_calls (events w l) = AuthGetUser (bearer_token w) :: rest
       /\ (rest <> [] ->
           auth_error (auth_getUser w (bearer_token w)) = None
           /\ exists u, auth_user (auth_getUser w (bearer_token w)) = Some u).
Proof.
  unfold bearer_token.
  break_handler;
    first [ left; reflexivity
          | right; eexists; split; [reflexivity|];
            intros N;
            first [ exfalso; apply N; reflexivity
                  | split; [reflexivity | eexists; reflexivity] ] ].
Qed.

(** X6. When the gateway answers the session request with a status in the
    200 range and a JSON body, the client receives 200 with the body's
    token (possibly absent) and the order id of the request, which is the
    order id of the pending row the run added to the ledger. *)
Theorem session_answer_carries_order_id (w : World) (l : list Transaction)
    (request : GatewayRequest) (r : GatewayResponse) (token : option string) :
  In (Fetch request) (events w l) ->
  gateway w request = FetchResponse r ->
  response_ok (gw_status r) = true ->
  gw_json r = JsonToken token ->
  response w l
  = Returned (mkResponse 200 jsonHeaders
                (BodySession token (snap_order_id (gw_body request))))
  /\ exists row,
       final_ledger w l = (l ++ [row])%list
       /\ tx_midtrans_order_id row = snap_order_id (gw_body request)
       /\ tx_status row = "pending".
Proof.
  break_handler; intros Hin Hg Hok Hj; pick_event Hin;
    injection Hin as <-;
    match goal with
    | E : gateway w _ = _ |- _ =>
        tryif constr_eq E Hg then fail else rewrite E in Hg
    end;
    try discriminate Hg; injection Hg as <-;
    try congruence;
    simpl;
    (split; [congruence|]);
    eexists; repeat split.
Qed.

(** X7. The row offered to the ledger and the gateway request of a run
    agree: the row belongs to the authenticated user, has a valid plan and
    the order id built from the user's id and the clock, and its amount
    is the request's gross amount, which is the total of the request's
    items; the request carries the user's email. *)
Theorem ledger_row_matches_gateway_request (w : World) (l : list Transaction)
    (request : GatewayRequest) :
  In (Fetch request) (events w l) ->
  exists u row,
    auth_user (auth_getUser w (bearer_token w)) = Some u
    /\ ledger_writes (events w l) = [row]
    /\ tx_user_id row = user_id u
    /\ is_plan (tx_paket row) = true
    /\ tx_midtrans_order_id row = orderId_of (user_id u) (now w)
    /\ snap_order_id (gw_body request) = orderId_of (user_id u) (now w)
    /\ tx_amount row = snap_gross_amount (gw_body request)
    /\ items_total (snap_item_details (gw_body request))
       = snap_gross_amount (gw_body request)
    /\ snap_email (gw_body request) = user_email u.
Proof.
  unfold bearer_token.
  break_handler; intros Hin; pick_event Hin;
    injection Hin as <-;
    eexists; eexists; (split; [reflexivity|]); (split; [reflexivity|]);
    simpl; repeat split; try assumption; lia.
Qed.

(** X8. A run offers at most one row to the ledger, asks the identity
    service at most once, and calls the gateway at most once and only
    for a row the ledger accepted: nothing is retried. *)
Theorem nothing_is_retried (w : World) (l : list Transaction) :
  (List.length (ledger_writes (events w l)) <= 1)%nat
  /\ (List.length (gateway_calls (events w l))
      <= List.length (written (events w l)))%nat
  /\ (List.length (filter (fun e => match e with AuthGetUser _ => true
                                          | _ => false end)
                     (events w l)) <= 1)%nat.
Proof.
  break_handler; repeat split; auto.
Qed.

(** The rows a run adds are pending rows, at most one. *)
Lemma written_at_most_one_pending (w : World) (l : list Transaction) :
  (List.length (written (events w l)) <= 1)%nat
  /\ Forall (fun row => tx_status row = "pending") (written (events w l)).
Proof.
  break_handler; split; auto; repeat constructor.
Qed.

Lemma serve_appends (ws : list World) (s : State) :
  List.length (fst (serve ws s)) = List.length ws
  /\ exists added,
       ledger (snd (serve ws s)) = (ledger s ++ added)%list
       /\ (List.length added <= List.length ws)%nat
       /\ Forall (fun row => tx_status row = "pending") added.
Proof.
  revert s.
  induction ws as [|w ws IH]; intros [l t]; simpl.
  - split; [reflexivity|]. exists []. rewrite app_nil_r. repeat split; auto.
  - rewrite handler_frame.
    specialize (IH (mkState (final_ledger w l) (t ++ events w l))).
    destruct (serve ws (mkState (final_ledger w l) (t ++ events w l)))
      as [rs s'']. simpl in *.
    destruct IH as (Hlen & added & Hl & Hn & Hp).
    destruct (written_at_most_one_pending w l) as [Hw1 Hw2].
    split; [now rewrite Hlen|].
    exists (written (events w l) ++ added)%list.
    rewrite Hl, final_ledger_written, app_assoc.
    split; [reflexivity|]. split.
    + rewrite length_app. lia.
    + apply Forall_app. split; assumption.
Qed.

(** X9. Serving any sequence of requests answers each of them and only
    appends to the ledger: the rows present at the start stay, in order and
    unchanged, followed by at most one new row per request, all pending. *)
Theorem ledger_is_append_only (ws : list World) (l0 : list Transaction) :
  List.length (fst (serve ws (mkState l0 []))) = List.length ws
  /\ exists added,
       ledger (snd (serve ws (mkState l0 []))) = (l0 ++ added)%list
       /\ (List.length added <= List.length ws)%nat
       /\ Forall (fun row => tx_status row = "pending") added.
Proof.
  exact (serve_appends ws (mkState l0 [])).
Qed.

(** X10. When the gateway call is rejected by the transport, or answers in
    the 200 range with a body that is not JSON, the client receives a 500
    whose error is the exception's message, or
    ["Failed to create payment session"] when that message is empty. *)
Theorem gateway_exception_message (w : World) (l : list Transaction)
    (request : GatewayRequest) (message : string) :
  In (Fetch request) (events w l) ->
  gateway w request = FetchThrows message
  \/ (exists r, gateway w request = FetchResponse r
                /\ response_ok (gw_status r) = true
                /\ gw_json r = JsonThrows message) ->
  response w l
  = failure (if String.eqb message "" then "Failed to create payment session"
             else message).
Proof.
  rewrite <- or_else_cases. unfold failure.
  break_handler; intros Hin Hg; pick_event Hin;
    injection Hin as <-;
    destruct Hg as [Hg | (r & Hg & Hok & Hj)];
    match goal with
    | E : gateway w _ = _ |- _ =>
        tryif constr_eq E Hg then fail else rewrite E in Hg
    end;
    try discriminate Hg; injection Hg as <-;
    try congruence;
    try match goal with
        | E : gw_json _ = _ |- _ =>
            tryif constr_eq E Hj then fail
            else (rewrite E in Hj; try discriminate Hj; injection Hj as <-)
        end;
    reflexivity.
Qed.

(** ** The bearer token *)

Lemma substring_all (s : string) :
  String.substring 0 (String.length s) s = s.
Proof.
  induction s as [|c s IH]; simpl; [reflexivity | now rewrite IH].
Qed.

Lemma replace_absent (pat rep s : string) :
  Js.includes pat s = false -> Js.replace pat rep s = s.
Proof.
  unfold Js.includes.
  induction s as [|c s IH].
  - destruct pat; simpl; intros H; [discriminate H | reflexivity].
  - change (String.index 0 pat (String c s))
      with (if String.prefix pat (String c s) then Some 0%nat
            else match String.index 0 pat s with
                 | Some n => Some (S n)
                 | None => None
                 end).
    change (Js.replace pat rep (String c s))
      with (if String.prefix pat (String c s)
            then rep ++ String.substring (String.length pat)
                          (String.length (String c s) - String.length pat)
                          (String c s)
            else String c (Js.replace pat rep s)).
    destruct (String.prefix pat (String c s)); intros H; [discriminate H|].
    rewrite IH; [reflexivity|].
    destruct (String.index 0 pat s); [discriminate H | reflexivity].
Qed.

(** X11. The token sent to the identity service is the Authorization
    header without its first ["Bearer "]: a header ["Bearer " ++ t] gives
    [t], and a header in which ["Bearer "] does not occur is taken whole,
    so the scheme word is not required. *)
Theorem bearer_token_extraction (w : World) (header : string) :
  req_authorization w = Some header ->
  (forall t, header = "Bearer " ++ t -> bearer_token w = t)
  /\ (Js.includes "Bearer " header = false -> bearer_token w = header).
Proof.
  intros H. unfold bearer_token. rewrite H. simpl Js.value_of. split.
  - intros t ->.
    cbn.
    replace (String.prefix "" t) with true by (destruct t; reflexivity).
    rewrite Nat.sub_0_r. apply substring_all.
  - apply replace_absent.
Qed.

(** ** Quotes *)

(** X12. A quote is either the default table's or the stored price and
    name of a package of the store that is active and has the plan's
    duration: an inactive package, or one of another duration, is never
    quoted, and none is when the query fails. *)
Theorem quote_comes_from_active_package (w : World) (paket : string)
    (s : State) :
  exists quote,
    fst (resolve_price w paket s) = Returned quote
    /\ (quote = (fallback_amount paket, fallback_name paket)
        \/ exists r,
             db_packages_error w = None
             /\ In r (db_packages w)
             /\ pkg_is_active r = Some true
             /\ pkg_duration_months r = plan_duration paket
             /\ quote = (pkg_price r, pkg_name r)).
Proof.
  destruct (resolve_price_result w paket s) as [evs ->]. simpl.
  eexists. split; [reflexivity|].
  destruct (DbFacts.select_package_cases w (plan_duration paket))
    as [(e & He & ->) | [(He & Hf & ->) | (r & He & Hf & ->)]]; simpl;
    [left; reflexivity | left; reflexivity |].
  right. exists r.
  destruct (DbFacts.first_row _ _ _ Hf) as (Hin & Hm & _).
  unfold Db.matches in Hm. apply andb_true_iff in Hm. destruct Hm as [Ha Hd].
  apply Z.eqb_eq in Hd.
  repeat split; try assumption.
  destruct (pkg_is_active r) as [[|]|]; try discriminate Ha. reflexivity.
Qed.

(** X16. For the yearly plan, when the package query fails or no active
    package of twelve months exists, the quote is 400000 and
    ["Premium Membership 1 Tahun"]; a failing query gives this quote even
    when the store holds an active yearly package. *)
Theorem yearly_fallback_quote (w : World) (s : State) :
  db_packages_error w <> None
  \/ filter (Db.matches 12) (db_packages w) = [] ->
  fst (resolve_price w "yearly" s)
  = Returned (400000, "Premium Membership 1 Tahun").
Proof.
  intros H.
  exact (resolve_price_fallback w "yearly" s H).
Qed.

(** ** The customer's name *)

(** X14. When the profile query finds exactly one row for the user and its
    name is not empty, every gateway request of the run carries that name
    as the customer's first name. *)
Theorem profile_name_is_customer_name (w : World) (l : list Transaction)
    (id : string) (p : Profile) (request : GatewayRequest) :
  In (SelectProfile id) (events w l) ->
  db_profiles_error w = None ->
  filter (fun q => String.eqb (profile_id q) id) (db_profiles w) = [p] ->
  profile_nama p <> "" ->
  In (Fetch request) (events w l) ->
  snap_first_name (gw_body request) = profile_nama p.
Proof.
  break_handler; intros Hin He Hf Hn Hreq; pick_event Hin; pick_event Hreq;
    injection Hin as <-; injection Hreq as <-;
    simpl; unfold Db.select_profile; rewrite He, Hf; simpl;
    unfold Js.or_else, Js.truthy;
    apply String.eqb_neq in Hn; rewrite Hn; reflexivity.
Qed.

(** X15. When the profile query finds several rows for the user, or one
    row with an empty name, every gateway request of the run carries
    ["User"] as the customer's first name. *)
Theorem ambiguous_profile_gives_default_name (w : World)
    (l : list Transaction) (id : string) (request : GatewayRequest) :
  In (SelectProfile id) (events w l) ->
  (exists p q rest,
      filter (fun r => String.eqb (profile_id r) id) (db_profiles w)
      = p :: q :: rest)
  \/ (exists p,
        filter (fun r => String.eqb (profile_id r) id) (db_profiles w) = [p]
        /\ profile_nama p = "") ->
  In (Fetch request) (events w l) ->
  snap_first_name (gw_body request) = "User".
Proof.
  break_handler; intros Hin Hf Hreq; pick_event Hin; pick_event Hreq;
    injection Hin as <-; injection Hreq as <-;
    simpl; unfold Db.select_profile;
    destruct (db_profiles_error w); try reflexivity;
    destruct Hf as [(p1 & p2 & others & ->) | (p1 & -> & Hn)]; simpl;
    try reflexivity; rewrite Hn; reflexivity.
Qed.

(** * The roles and the admin page *)

Module AdminFacts.
Import Admin.

Lemma role_eqb_eq (a b : app_role) : role_eqb a b = true <-> a = b.
Proof.
  destruct a, b; simpl; split; intros H; try reflexivity; discriminate H.
Qed.

Lemma role_eqb_refl (a : app_role) : role_eqb a a = true.
Proof. destruct a; reflexivity. Qed.

Lemma has_role_In (roles : list UserRole) (u : string) (r : app_role) :
  has_role roles (Some u) r = true <-> In (mkUserRole u r) roles.
Proof.
  unfold has_role. rewrite existsb_exists. split.
  - intros ([u' r'] & Hin & H). simpl in H.
    apply andb_true_iff in H. destruct H as [Hu Hr].
    apply String.eqb_eq in Hu. apply role_eqb_eq in Hr. subst. exact Hin.
  - intros Hin. exists (mkUserRole u r). split; [exact Hin|]. simpl.
    now rewrite String.eqb_refl, role_eqb_refl.
Qed.

Lemma has_role_app (a b : list UserRole) (u : option string) (r : app_role) :
  has_role (a ++ b) u r = has_role a u r || has_role b u r.
Proof.
  destruct u as [u|]; simpl; [apply existsb_app | reflexivity].
Qed.


(** *** The migration of the legacy roles *)

Lemma migrate_role_id (r : app_role) : migrate_role r = r.
Proof. destruct r; reflexivity. Qed.

Lemma In_migrate_roles (profiles : list ProfileRow) (u : string) (r : app_role) :
  In (mkUserRole u r) (migrate_roles profiles)
  <-> exists p, In p profiles /\ pr_id p = u /\ pr_role p = Some r.
Proof.
  unfold migrate_roles. rewrite in_flat_map. split.
  - intros (p & Hin & H). exists p. split; [exact Hin|].
    destruct (pr_role p) as [r'|]; [|destruct H].
    destruct H as [H | []]. injection H as <- <-.
    now rewrite migrate_role_id.
  - intros (p & Hin & <- & Hr). exists p. split; [exact Hin|].
    rewrite Hr, migrate_role_id. left. reflexivity.
Qed.

Lemma find_migrate_roles (profiles : list ProfileRow) (p : ProfileRow) :
  NoDup (map pr_id profiles) ->
  In p profiles ->
  find (fun r => String.eqb (ur_user_id r) (pr_id p)) (migrate_roles profiles)
  = option_map (fun r => mkUserRole (pr_id p) r) (pr_role p).
Proof.
  induction profiles as [|q profiles IH]; intros Hnd Hin; [destruct Hin|].
  simpl in Hnd. inversion Hnd as [|? ? Hq Hnd']; subst.
  assert (Hnone : forall x, ~ In x (map pr_id profiles) ->
            find (fun r => String.eqb (ur_user_id r) x) (migrate_roles profiles)
            = None).
  { intros x Hx.
    destruct (find (fun r => String.eqb (ur_user_id r) x)
                   (migrate_roles profiles)) as [[u r]|] eqn:E; [|reflexivity].
    exfalso. apply find_some in E. destruct E as [E1 E2]. simpl in E2.
    apply String.eqb_eq in E2. subst u.
    apply In_migrate_roles in E1. destruct E1 as (p' & Hp' & Hid & _).
    apply Hx. rewrite <- Hid. apply in_map. exact Hp'. }
  destruct Hin as [-> | Hin].
  - unfold migrate_roles. simpl.
    destruct (pr_role p) as [r|]; simpl.
    + rewrite String.eqb_refl, migrate_role_id. reflexivity.
    + apply Hnone. exact Hq.
  - assert (Hne : pr_id q <> pr_id p).
    { intros E. apply Hq. rewrite E. apply in_map. exact Hin. }
    unfold migrate_roles. simpl.
    destruct (pr_role q) as [r|]; simpl.
    + apply String.eqb_neq in Hne. rewrite Hne. apply IH; assumption.
    + apply IH; assumption.
Qed.

(** X18. After step 4 of the migration a user has a role in [user_roles]
    exactly when a profile of that user had it as legacy role; and, the
    profile ids being distinct, the admin page built from the migrated
    rows shows each profile with its legacy role, ['biasa'] for a NULL
    one. *)
Theorem migration_keeps_roles (profiles : list ProfileRow) :
  (forall u r,
      has_role (migrate_roles profiles) (Some u) r = true
      <-> exists p, In p profiles /\ pr_id p = u /\ pr_role p = Some r)
  /\ (NoDup (map pr_id profiles) ->
      usersWithRoles profiles (migrate_roles profiles)
      = map (fun p => mkPageUser p (match pr_role p with
                                    | Some r => r
                                    | None => biasa
                                    end)) profiles).
Proof.
  split.
  - intros u r. rewrite has_role_In. apply In_migrate_roles.
  - intros Hnd. unfold usersWithRoles. apply map_ext_in.
    intros p Hin. rewrite (find_migrate_roles profiles p Hnd Hin).
    destruct (pr_role p); reflexivity.
Qed.

(** *** The list of users *)

(** X19. The page lists the profiles it fetched, in their order, each
    with one role.  A role other than ['biasa'] is shown only to a user
    who has it in [user_roles]; ['biasa'] is shown to a user without any
    row; and a user all of whose rows carry one role is shown with it. *)
Theorem listed_roles (profilesData : list ProfileRow)
    (rolesData : list UserRole) :
  map pu_profile (usersWithRoles profilesData rolesData) = profilesData
  /\ forall user,
       In user (usersWithRoles profilesData rolesData) ->
       let id := pr_id (pu_profile user) in
       (pu_role user <> biasa ->
        has_role rolesData (Some id) (pu_role user) = true)
       /\ ((forall r, has_role rolesData (Some id) r = false) ->
           pu_role user = biasa)
       /\ (forall r,
              has_role rolesData (Some id) r = true ->
              (forall r', has_role rolesData (Some id) r' = true -> r' = r) ->
              pu_role user = r).
Proof.
  split.
  - unfold usersWithRoles. rewrite map_map. simpl. apply map_id.
  - intros user Hin. unfold usersWithRoles in Hin.
    apply in_map_iff in Hin. destruct Hin as (p & <- & _).
    cbn [pu_profile pu_role].
    destruct (find (fun r => String.eqb (ur_user_id r) (pr_id p)) rolesData)
      as [[u r0]|] eqn:E; cbn [ur_role].
    + apply find_some in E. destruct E as [Hin Hu]. simpl in Hu.
      apply String.eqb_eq in Hu. subst u.
      assert (H0 : has_role rolesData (Some (pr_id p)) r0 = true)
        by (apply has_role_In; exact Hin).
      split; [intros _; exact H0|]. split.
      * intros Hnone. rewrite Hnone in H0. discriminate H0.
      * intros r _ Huniq. apply Huniq. exact H0.
    + split; [intros N; now contradiction N|]. split; [reflexivity|].
      intros r Hr _. exfalso.
      apply has_role_In in Hr.
      apply (find_none _ _ E) in Hr. simpl in Hr.
      rewrite String.eqb_refl in Hr. discriminate Hr.
Qed.

(** *** The search box *)

Lemma includes_empty (s : string) : Js.includes "" s = true.
Proof.
  unfold Js.includes. destruct s; reflexivity.
Qed.

Lemma prefix_refl (s : string) : String.prefix s s = true.
Proof.
  induction s as [|c s IH]; simpl; [reflexivity|].
  destruct (Ascii.ascii_dec c c) as [_|N]; [exact IH | now contradiction N].
Qed.

Lemma includes_refl (s : string) : Js.includes s s = true.
Proof.
  unfold Js.includes. destruct s as [|c s]; [reflexivity|].
  change (String.index 0 (String c s) (String c s))
    with (if String.prefix (String c s) (String c s) then Some 0%nat
          else match String.index 0 (String c s) s with
               | Some n => Some (S n)
               | None => None
               end).
  now rewrite prefix_refl.
Qed.

Lemma lower_char_idem (c : ascii) :
  Case.lower_char (Case.lower_char c) = Case.lower_char c.
Proof.
  destruct c as [[] [] [] [] [] [] [] []]; vm_compute; reflexivity.
Qed.

Lemma toLowerCase_idem (s : string) :
  Case.toLowerCase (Case.toLowerCase s) = Case.toLowerCase s.
Proof.
  induction s as [|c s IH]; simpl; [reflexivity|].
  now rewrite lower_char_idem, IH.
Qed.

Lemma filter_all {A} (f : A -> bool) (l : list A) :
  (forall x, In x l -> f x = true) -> filter f l = l.
Proof.
  induction l as [|x l IH]; intros H; simpl; [reflexivity|].
  rewrite (H x (or_introl eq_refl)), IH; [reflexivity|].
  intros y Hy. apply H. right. exact Hy.
Qed.

(** X20. The search box: an empty query lists every user; the letter case
    of the query does not matter; the listed users are users of the page,
    in their order; and a user whose name is the query up to letter case
    is listed. *)
Theorem search_by_name (users : list PageUser) (searchQuery : string) :
  filteredUsers users "" = users
  /\ filteredUsers users (Case.toLowerCase searchQuery)
     = filteredUsers users searchQuery
  /\ incl (filteredUsers users searchQuery) users
  /\ forall user,
       In user users ->
       Case.toLowerCase (pr_nama (pu_profile user))
       = Case.toLowerCase searchQuery ->
       In user (filteredUsers users searchQuery).
Proof.
  unfold filteredUsers. repeat split.
  - apply filter_all. intros user _. apply includes_empty.
  - now rewrite toLowerCase_idem.
  - intros user Hin. apply filter_In in Hin. apply Hin.
  - intros user Hin E. apply filter_In. split; [exact Hin|].
    rewrite E. apply includes_refl.
Qed.

(** *** Counters and badges *)


(** *** The edit form *)

Lemma has_role_delete_other (roles : list UserRole) (id u : string)
    (r : app_role) :
  u <> id ->
  has_role (filter (fun x => negb (String.eqb (ur_user_id x) id)) roles)
           (Some u) r
  = has_role roles (Some u) r.
Proof.
  intros Hne. unfold has_role.
  induction roles as [|[u' r'] roles IH]; simpl; [reflexivity|].
  destruct (String.eqb_spec u' id) as [-> | Hid]; simpl.
  - apply String.eqb_neq in Hne. rewrite String.eqb_sym in Hne.
    rewrite Hne. simpl. exact IH.
  - now rewrite IH.
Qed.

Lemma has_role_delete_self (roles : list UserRole) (id : string)
    (r : app_role) :
  has_role (filter (fun x => negb (String.eqb (ur_user_id x) id)) roles)
           (Some id) r
  = false.
Proof.
  unfold has_role.
  induction roles as [|[u' r'] roles IH]; simpl; [reflexivity|].
  destruct (String.eqb_spec u' id) as [-> | Hid]; simpl; [exact IH|].
  apply String.eqb_neq in Hid. rewrite Hid. simpl. exact IH.
Qed.

Lemma has_role_single (id u : string) (r r' : app_role) :
  has_role [mkUserRole id r] (Some u) r'
  = String.eqb id u && role_eqb r r'.
Proof.
  simpl. now rewrite orb_false_r.
Qed.

(** The role rows after the form was sent, for an admin who edits another
    user and no call failing on its way. *)
Lemma onSubmit_roles (b : Backend) (t : Tables) (id : string)
    (data : RoleForm) (upd : ProfileUpdate) :
  has_role (user_roles t) (caller b) admin = true ->
  caller b <> Some id ->
  update_fails b = false -> delete_fails b = false -> insert_fails b = false ->
  profileUpdateData b data = Some upd ->
  snd (onSubmit b t (Some id) data) = Some Berhasil
  /\ user_roles (fst (onSubmit b t (Some id) data))
     = (filter (fun x => negb (String.eqb (ur_user_id x) id)) (user_roles t)
        ++ [mkUserRole id (form_role data)])%list.
Proof.
  intros Ha Hc Hu Hd Hi Hp.
  unfold onSubmit. rewrite Hp, Hu, Hd, Hi.
  unfold delete_user_roles, insert_user_role. rewrite Ha.
  cbn [ur_user_id ur_role].
  rewrite has_role_delete_self.
  assert (Ha' : has_role (filter (fun x => negb (String.eqb (ur_user_id x) id))
                                 (user_roles t)) (caller b) admin = true).
  { destruct (caller b) as [c|]; [|discriminate Ha].
    rewrite has_role_delete_other; [exact Ha|]. congruence. }
  rewrite Ha'. destruct upd; simpl; split; reflexivity.
Qed.

(** X22. When an admin edits another user and no call fails, the form
    reports success and the user has exactly the chosen role afterwards,
    whatever rows there were before; the roles of all other users are as
    before. *)
Theorem edit_sets_the_role (b : Backend) (t : Tables) (id : string)
    (data : RoleForm) (upd : ProfileUpdate) :
  has_role (user_roles t) (caller b) admin = true ->
  caller b <> Some id ->
  update_fails b = false -> delete_fails b = false -> insert_fails b = false ->
  profileUpdateData b data = Some upd ->
  let t' := fst (onSubmit b t (Some id) data) in
  snd (onSubmit b t (Some id) data) = Some Berhasil
  /\ (forall r, has_role (user_roles t') (Some id) r = true
                <-> r = form_role data)
  /\ (forall u r, u <> id ->
        has_role (user_roles t') (Some u) r
        = has_role (user_roles t) (Some u) r).
Proof.
  intros Ha Hc Hu Hd Hi Hp t'.
  destruct (onSubmit_roles b t id data upd Ha Hc Hu Hd Hi Hp) as [Hs Hr].
  subst t'. rewrite Hr. split; [exact Hs|]. split.
  - intros r. rewrite has_role_app, has_role_delete_self, has_role_single.
    rewrite String.eqb_refl. simpl. rewrite role_eqb_eq.
    split; intros H; now symmetry.
  - intros u r Hne. rewrite has_role_app, has_role_delete_other by exact Hne.
    rewrite has_role_single.
    apply String.eqb_neq in Hne. rewrite String.eqb_sym in Hne.
    rewrite Hne. simpl. apply orb_false_r.
Qed.

(** X23. An admin who edits their own account loses every role: the form
    first deletes the admin's rows, the insert that follows is then made
    by someone who is no admin any more and is refused, and the form
    reports failure, whichever role was chosen. *)
Theorem self_edit_removes_all_roles (b : Backend) (t : Tables) (id : string)
    (data : RoleForm) (upd : ProfileUpdate) :
  caller b = Some id ->
  has_role (user_roles t) (Some id) admin = true ->
  update_fails b = false -> delete_fails b = false -> insert_fails b = false ->
  profileUpdateData b data = Some upd ->
  let t' := fst (onSubmit b t (Some id) data) in
  snd (onSubmit b t (Some id) data) = Some Gagal
  /\ forall r, has_role (user_roles t') (Some id) r = false.
Proof.
  intros Hc Ha Hu Hd Hi Hp t'. subst t'.
  unfold onSubmit. rewrite Hp, Hu, Hd, Hi.
  unfold delete_user_roles, insert_user_role. rewrite Hc, Ha.
  rewrite has_role_delete_self. simpl.
  destruct upd; simpl; split; try reflexivity;
    intros r; apply has_role_delete_self.
Qed.

(** X24. For a signed-in user who is no admin the form always reports
    failure and leaves [user_roles] as it was. *)
Theorem edit_by_non_admin_fails (b : Backend) (t : Tables) (id : string)
    (data : RoleForm) :
  has_role (user_roles t) (caller b) admin = false ->
  snd (onSubmit b t (Some id) data) = Some Gagal
  /\ user_roles (fst (onSubmit b t (Some id) data)) = user_roles t.
Proof.
  intros Ha. unfold onSubmit, delete_user_roles, insert_user_role.
  rewrite Ha. simpl.
  destruct (profileUpdateData b data) as [[|v]|]; simpl;
    try destruct (update_fails b); simpl;
    try (split; reflexivity);
    destruct (delete_fails b); simpl; try (split; reflexivity);
    destruct (insert_fails b); simpl; rewrite ?Ha; simpl; split; reflexivity.
Qed.

(** X25. Whatever the outcome, the form touches nobody else: the roles
    and the profiles of users other than the edited one are as before. *)
Theorem edit_touches_one_user (b : Backend) (t : Tables) (id : string)
    (data : RoleForm) :
  let t' := fst (onSubmit b t (Some id) data) in
  (forall u r, u <> id ->
      has_role (user_roles t') (Some u) r = has_role (user_roles t) (Some u) r)
  /\ filter (fun p => negb (String.eqb (pr_id p) id)) (profiles t')
     = filter (fun p => negb (String.eqb (pr_id p) id)) (profiles t).
Proof.
  assert (Hroles : forall roles u r, u <> id ->
            has_role (delete_user_roles b roles id) (Some u) r
            = has_role roles (Some u) r).
  { intros roles u r Hne. unfold delete_user_roles.
    destruct (has_role roles (caller b) admin); [|reflexivity].
    now apply has_role_delete_other. }
  assert (Hins : forall roles roles' u r, u <> id ->
            insert_user_role b roles (mkUserRole id (form_role data))
            = Some roles' ->
            has_role roles' (Some u) r = has_role roles (Some u) r).
  { intros roles roles' u r Hne E. unfold insert_user_role in E.
    destruct (_ && _); [|discriminate E]. injection E as <-.
    rewrite has_role_app, has_role_single.
    apply String.eqb_neq in Hne. rewrite String.eqb_sym in Hne.
    rewrite Hne. simpl. apply orb_false_r. }
  assert (Hprof : forall v,
            filter (fun p => negb (String.eqb (pr_id p) id))
                   (update_profiles b t id v)
            = filter (fun p => negb (String.eqb (pr_id p) id)) (profiles t)).
  { intros v. unfold update_profiles.
    destruct (_ || _); [|reflexivity].
    induction (profiles t) as [|p ps IH]; simpl; [reflexivity|].
    destruct (String.eqb (pr_id p) id) eqn:E; simpl.
    - rewrite E. simpl. exact IH.
    - rewrite E. simpl. now rewrite IH. }
  assert (Htail : forall profiles',
            filter (fun p => negb (String.eqb (pr_id p) id)) profiles'
            = filter (fun p => negb (String.eqb (pr_id p) id)) (profiles t) ->
            let res :=
              if delete_fails b
              then (mkTables profiles' (user_roles t), Some Gagal)
              else
                if insert_fails b
                then (mkTables profiles'
                        (delete_user_roles b (user_roles t) id), Some Gagal)
                else
                  match insert_user_role b
                          (delete_user_roles b (user_roles t) id)
                          (mkUserRole id (form_role data)) with
                  | None => (mkTables profiles'
                               (delete_user_roles b (user_roles t) id),
                             Some Gagal)
                  | Some roles'' => (mkTables profiles' roles'', Some Berhasil)
                  end in
            (forall u r, u <> id ->
                has_role (user_roles (fst res)) (Some u) r
                = has_role (user_roles t) (Some u) r)
            /\ filter (fun p => negb (String.eqb (pr_id p) id))
                      (profiles (fst res))
               = filter (fun p => negb (String.eqb (pr_id p) id)) (profiles t)).
  { intros profiles' Hp res. subst res.
    destruct (delete_fails b); [split; [reflexivity | exact Hp]|].
    destruct (insert_fails b);
      [split; [intros; now apply Hroles | exact Hp]|].
    destruct (insert_user_role b (delete_user_roles b (user_roles t) id)
                (mkUserRole id (form_role data))) as [roles''|] eqn:E;
      (split; [|exact Hp]); intros u r Hne; cbn [fst user_roles].
    - rewrite (Hins _ _ u r Hne E). now apply Hroles.
    - now apply Hroles. }
  intros t'. subst t'. unfold onSubmit.
  destruct (profileUpdateData b data) as [[|v]|];
    [ apply Htail; reflexivity
    | destruct (update_fails b);
      [ split; reflexivity | apply Htail; apply Hprof ]
    | split; reflexivity ].
Qed.

Lemma onSubmit_profiles (b : Backend) (t : Tables) (id : string)
    (data : RoleForm) :
  profiles (fst (onSubmit b t (Some id) data))
  = match profileUpdateData b data with
    | Some (SetPremiumUntil v) =>
        if update_fails b then profiles t else update_profiles b t id v
    | _ => profiles t
    end.
Proof.
  unfold onSubmit.
  destruct (profileUpdateData b data) as [[|v]|]; [| |reflexivity].
  - destruct (delete_fails b); [reflexivity|].
    destruct (insert_fails b); [reflexivity|].
    destruct (insert_user_role _ _ _); reflexivity.
  - destruct (update_fails b); [reflexivity|].
    destruct (delete_fails b); [reflexivity|].
    destruct (insert_fails b); [reflexivity|].
    destruct (insert_user_role _ _ _); reflexivity.
Qed.

Lemma update_profiles_sets (b : Backend) (t : Tables) (id : string)
    (v : option Z) (p : ProfileRow) :
  has_role (user_roles t) (caller b) admin = true ->
  In p (update_profiles b t id v) -> pr_id p = id ->
  pr_premium_until p = v.
Proof.
  intros Ha Hin Hid. unfold update_profiles in Hin. rewrite Ha in Hin.
  simpl in Hin. apply in_map_iff in Hin. destruct Hin as (q & E & _).
  destruct (String.eqb_spec (pr_id q) id) as [Hq | Hq].
  - subst p. reflexivity.
  - subst p. contradiction.
Qed.

(** X26. What an admin's edit does to [premium_until] of the edited user,
    the update reaching the database: any role but ['premium'] clears the
    date; ['premium'] with a date that reads as an instant sets it;
    ['premium'] without a date leaves the profiles alone; and ['premium']
    with a date that does not read fails at once, with nothing changed.
    The date is written before the roles are touched and stays written if
    a later call fails. *)
Theorem premium_until_rule (b : Backend) (t : Tables) (id : string)
    (data : RoleForm) :
  has_role (user_roles t) (caller b) admin = true ->
  update_fails b = false ->
  let t' := fst (onSubmit b t (Some id) data) in
  (form_role data <> premium ->
   forall p, In p (profiles t') -> pr_id p = id -> pr_premium_until p = None)
  /\ (form_role data = premium ->
      Js.truthy_opt (form_premium_until data) = false ->
      profiles t' = profiles t)
  /\ (form_role data = premium ->
      Js.truthy_opt (form_premium_until data) = true ->
      match parse_date b (Js.value_of (form_premium_until data)) with
      | Some instant =>
          forall p, In p (profiles t') -> pr_id p = id ->
                    pr_premium_until p = Some instant
      | None => onSubmit b t (Some id) data = (t, Some Gagal)
      end).
Proof.
  intros Ha Hu t'. subst t'. rewrite onSubmit_profiles.
  unfold profileUpdateData. rewrite Hu.
  split; [|split].
  - intros Hr p. 
    assert (E : role_eqb (form_role data) premium = false).
    { destruct (role_eqb (form_role data) premium) eqn:E; [|reflexivity].
      apply role_eqb_eq in E. contradiction. }
    rewrite E. simpl.
    apply update_profiles_sets. exact Ha.
  - intros Hr Hd. rewrite Hr, Hd. reflexivity.
  - intros Hr Hd. rewrite Hr, Hd. simpl.
    destruct (parse_date b (Js.value_of (form_premium_until data)))
      as [instant|] eqn:E.
    + intros p. apply update_profiles_sets. exact Ha.
    + unfold onSubmit, profileUpdateData. rewrite Hr, Hd, E. reflexivity.
Qed.

(** X28. The edit is not atomic: when the delete has gone through and the
    insert then fails on its way, the form reports failure and the edited
    user is left without any role. *)
Theorem failed_insert_leaves_no_role (b : Backend) (t : Tables) (id : string)
    (data : RoleForm) (upd : ProfileUpdate) :
  has_role (user_roles t) (caller b) admin = true ->
  update_fails b = false -> delete_fails b = false -> insert_fails b = true ->
  profileUpdateData b data = Some upd ->
  let t' := fst (onSubmit b t (Some id) data) in
  snd (onSubmit b t (Some id) data) = Some Gagal
  /\ forall r, has_role (user_roles t') (Some id) r = false.
Proof.
  intros Ha Hu Hd Hi Hp t'. subst t'.
  unfold onSubmit. rewrite Hp, Hu, Hd, Hi.
  unfold delete_user_roles. rewrite Ha.
  destruct upd; cbn [fst snd user_roles]; split; try reflexivity;
    intros r; apply has_role_delete_self.
Qed.

(** *** The sign-up trigger *)



End AdminFacts.

(** * Examples of the further properties *)

Lemma preflight_has_no_effects_witness :
  run world_preflight []
  = (Returned (mkResponse 200 corsHeaders BodyNull), mkState [] []).
Proof.
  apply preflight_has_no_effects. reflexivity.
Defined.

Lemma misconfigured_server_fails_early_witness :
  external_calls (events world_unconfigured []) = []
  /\ final_ledger world_unconfigured [] = []
  /\ response world_unconfigured []
     = failure "Midtrans server key not configured".
Proof.
  apply (misconfigured_server_fails_early world_unconfigured []).
  - discriminate.
  - reflexivity.
Defined.

Lemma invalid_paket_rejected_witness :
  response world_weekly []
  = failure "Invalid paket. Must be 'monthly' or 'yearly'"
  /\ external_calls (events world_weekly []) = [AuthGetUser "good-token"]
  /\ final_ledger world_weekly [] = [].
Proof.
  apply (invalid_paket_rejected world_weekly []
           (mkUser "abc12345-6789" (Some "u@x.com")) (Some "weekly")).
  - repeat split; try reflexivity. discriminate.
  - reflexivity.
  - right. reflexivity.
Defined.

Lemma identity_checked_first_witness :
  exists rest,
    external_calls (events world_session [])
    = AuthGetUser "good-token" :: rest
    /\ auth_error (auth_getUser world_session "good-token") = None.
Proof.
  destruct (identity_checked_first world_session []) as [H | (rest & H & Hv)].
  - discriminate H.
  - exists rest. split; [exact H|].
    apply Hv. intros E. rewrite E in H. discriminate H.
Defined.

Lemma session_answer_carries_order_id_witness :
  response world_session []
  = Returned (mkResponse 200 jsonHeaders
                (BodySession (Some "snap-token") "prem-abc12345-1730000000123")).
Proof.
  assert (Hin : In (Fetch example_request) (events world_session []))
    by (vm_compute; find_event).
  exact (proj1 (session_answer_carries_order_id world_session []
                  example_request
                  (mkGatewayResponse 201 "" (JsonToken (Some "snap-token")))
                  (Some "snap-token") Hin eq_refl eq_refl eq_refl)).
Defined.

Lemma ledger_row_matches_gateway_request_witness :
  exists u row,
    auth_user (auth_getUser world_session (bearer_token world_session)) = Some u
    /\ ledger_writes (events world_session []) = [row]
    /\ tx_amount row = snap_gross_amount (gw_body example_request).
Proof.
  assert (Hin : In (Fetch example_request) (events world_session []))
    by (vm_compute; find_event).
  destruct (ledger_row_matches_gateway_request world_session []
              example_request Hin)
    as (u & row & H1 & H2 & _ & _ & _ & _ & H3 & _).
  exists u, row. repeat split; assumption.
Defined.

Lemma gateway_exception_message_witness :
  response world_offline [] = failure "Failed to create payment session".
Proof.
  assert (Hin : In (Fetch example_request) (events world_offline []))
    by (vm_compute; find_event).
  exact (gateway_exception_message world_offline [] example_request ""
           Hin (or_introl eq_refl)).
Defined.

Lemma bearer_token_extraction_witness :
  bearer_token world_session = "good-token".
Proof.
  exact (proj1 (bearer_token_extraction world_session "Bearer good-token"
                  eq_refl) "good-token" eq_refl).
Defined.

Lemma quote_uses_preferred_package_witness :
  exists r,
    In r (db_packages world_two_packages)
    /\ fst (resolve_price world_two_packages "yearly" (mkState [] []))
       = Returned (pkg_price r, pkg_name r)
    /\ pkg_is_popular r = Some true
    /\ 100 <= pkg_created_at r.
Proof.
  destruct (quote_uses_preferred_package world_two_packages "yearly"
              (mkState [] [])
              (mkPackage 300000 12 "Annual Old Promo" (Some true) (Some true) 100))
    as (r & Hin & Hm & Hq & Hbest).
  - reflexivity.
  - right; right; left. reflexivity.
  - reflexivity.
  - exists r. split; [exact Hin|]. split; [exact Hq|].
    assert (Hnn : forall r', In r' (db_packages world_two_packages) ->
                    Db.matches (plan_duration "yearly") r' = true ->
                    pkg_is_popular r' <> None).
    { intros r' [<- | [<- | [<- | []]]] _; discriminate. }
    destruct (Hbest Hnn
                (mkPackage 300000 12 "Annual Old Promo" (Some true) (Some true) 100))
      as [Hp Hc].
    + right; right; left. reflexivity.
    + reflexivity.
    + pose proof (Hp eq_refl) as Hpop. split; [exact Hpop|].
      apply Hc. simpl. now rewrite Hpop.
Defined.

Lemma yearly_fallback_quote_witness :
  fst (resolve_price
         (example_world (Some "Bearer good-token") "yearly" [] [] session_answer)
         "yearly" (mkState [] []))
  = Returned (400000, "Premium Membership 1 Tahun").
Proof.
  apply yearly_fallback_quote. right. reflexivity.
Defined.

Lemma profile_name_is_customer_name_witness :
  snap_first_name (gw_body named_request) = "Budi".
Proof.
  apply (profile_name_is_customer_name world_named [] "abc12345-6789"
           (mkProfile "abc12345-6789" "Budi") named_request).
  - vm_compute. find_event.
  - reflexivity.
  - reflexivity.
  - discriminate.
  - vm_compute. find_event.
Defined.

Lemma ambiguous_profile_gives_default_name_witness :
  snap_first_name (gw_body example_request) = "User".
Proof.
  apply (ambiguous_profile_gives_default_name world_two_profiles []
           "abc12345-6789" example_request).
  - vm_compute. find_event.
  - left. exists (mkProfile "abc12345-6789" "Budi"),
      (mkProfile "abc12345-6789" "Budi S"), []. reflexivity.
  - vm_compute. find_event.
Defined.

Module AdminWitnesses.
Import Admin AdminExamples AdminFacts.


Lemma migration_keeps_roles_witness :
  usersWithRoles (profiles tables0) (migrate_roles (profiles tables0))
  = [mkPageUser (mkProfileRow "root" "Root" (Some admin) None) admin;
     mkPageUser (mkProfileRow "ani" "Ani Wijaya" (Some premium) (Some 100))
                premium].
Proof.
  apply (proj2 (migration_keeps_roles (profiles tables0))).
  repeat constructor; simpl; intuition discriminate.
Defined.

Lemma listed_roles_witness :
  has_role (user_roles tables0) (Some "root") admin = true.
Proof.
  apply (proj1 (proj2 (listed_roles (profiles tables0) (user_roles tables0))
                  (mkPageUser (mkProfileRow "root" "Root" (Some admin) None)
                              admin)
                  (or_introl eq_refl))).
  discriminate.
Defined.

Lemma search_by_name_witness :
  In (mkPageUser (mkProfileRow "ani" "Ani Wijaya" (Some premium) (Some 100))
                 biasa)
     (filteredUsers page0 "ANI WIJAYA").
Proof.
  apply (proj2 (proj2 (proj2 (search_by_name page0 "ANI WIJAYA")))).
  - right; left. reflexivity.
  - reflexivity.
Defined.

Lemma edit_sets_the_role_witness :
  snd (onSubmit (backend_of "root" false) tables0 (Some "ani") form_premium)
  = Some Berhasil
  /\ has_role (user_roles (fst (onSubmit (backend_of "root" false) tables0
                                         (Some "ani") form_premium)))
              (Some "ani") biasa = false.
Proof.
  destruct (edit_sets_the_role (backend_of "root" false) tables0 "ani"
              form_premium (SetPremiumUntil (Some 1893456000000)))
    as (Hs & Hr & _); try reflexivity; try discriminate.
  split; [exact Hs|].
  destruct (has_role _ (Some "ani") biasa) eqn:E; [|reflexivity].
  apply Hr in E. discriminate E.
Defined.

Lemma self_edit_removes_all_roles_witness :
  snd (onSubmit (backend_of "root" false) tables0 (Some "root") form_admin)
  = Some Gagal
  /\ has_role (user_roles (fst (onSubmit (backend_of "root" false) tables0
                                         (Some "root") form_admin)))
              (Some "root") admin = false.
Proof.
  destruct (self_edit_removes_all_roles (backend_of "root" false) tables0
              "root" form_admin (SetPremiumUntil None))
    as (Hs & Hr); try reflexivity.
  split; [exact Hs | apply Hr].
Defined.

Lemma edit_by_non_admin_fails_witness :
  snd (onSubmit (backend_of "ani" false) tables0 (Some "root") form_premium)
  = Some Gagal
  /\ user_roles (fst (onSubmit (backend_of "ani" false) tables0 (Some "root")
                               form_premium))
     = user_roles tables0.
Proof.
  apply edit_by_non_admin_fails. reflexivity.
Defined.

Lemma edit_touches_one_user_witness :
  has_role (user_roles (fst (onSubmit (backend_of "root" false) tables0
                                      (Some "ani") form_premium)))
           (Some "root") admin
  = has_role (user_roles tables0) (Some "root") admin.
Proof.
  apply (proj1 (edit_touches_one_user (backend_of "root" false) tables0 "ani"
                  form_premium)).
  discriminate.
Defined.

Lemma premium_until_rule_witness :
  Forall (fun p => pr_id p = "ani" -> pr_premium_until p = None)
         (profiles (fst (onSubmit (backend_of "root" false) tables0
                                  (Some "ani") form_admin))).
Proof.
  apply Forall_forall.
  apply (proj1 (premium_until_rule (backend_of "root" false) tables0 "ani"
                  form_admin eq_refl eq_refl)).
  discriminate.
Defined.

Lemma failed_insert_leaves_no_role_witness :
  snd (onSubmit (backend_of "root" true) tables0 (Some "ani") form_premium)
  = Some Gagal
  /\ has_role (user_roles (fst (onSubmit (backend_of "root" true) tables0
                                         (Some "ani") form_premium)))
              (Some "ani") premium = false.
Proof.
  destruct (failed_insert_leaves_no_role (backend_of "root" true) tables0
              "ani" form_premium (SetPremiumUntil (Some 1893456000000)))
    as (Hs & Hr); try reflexivity.
  split; [exact Hs | apply Hr].
Defined.


End AdminWitnesses.
